(** * slite-mcp: the Slite adapter for the Model Context Protocol

    A shallow embedding of the three TypeScript sources of the repository

    - [src/sliteApi.ts]     the remote client ([SliteApiClient]),
    - [src/index.ts]        the adapter built on the low-level [Server]
                            ([SliteServer]),
    - [src/stdio-server.ts] the adapter variant built on [McpServer],

    followed by the properties of the adapter contract.

    Conventions of the embedding.

    - A value of TypeScript type [string | undefined] is an [option string];
      the annotations are erased at run time, so a parameter annotated
      [string] that receives a key the host left out is [None] as well.
    - A [number] is an integer: the only number in the code is the limit of
      a search, which is passed along and never computed with.
    - An [async] function is a function from the state of the network to an
      outcome (a returned value or a thrown one) and the next state; the state
      records every request handed to the axios instance, in order.
    - What lives outside the repository is a parameter: the remote service
      behind axios, the message an [McpError] builds from its code and text,
      [JSON.stringify], and the [TypeError]s of the engine: of a failed
      destructuring, and of reading a key of a payload that is null.
    - [console.error] only writes to the diagnostic stream and is left out. *)

From Stdlib Require Import String Ascii List ZArith Bool Lia.
Import ListNotations.
Open Scope string_scope.

(* ------------------------------------------------------------------------- *)
(** ** JavaScript values, truthiness, template literals, thrown values *)

Module Js.

(** The values the adapter puts into payloads and query parameters. *)
Inductive JsValue : Type :=
| JsUndefined
| JsString (s : string)
| JsNumber (n : Z)
| JsArray (items : list string).

Definition ofString (v : option string) : JsValue :=
  match v with
  | Some s => JsString s
  | None => JsUndefined
  end.

Definition ofArray (v : option (list string)) : JsValue :=
  match v with
  | Some items => JsArray items
  | None => JsUndefined
  end.

(** An object literal: its own properties in insertion order. *)
Definition JsObject : Type := list (string * JsValue).

Definition keys (o : JsObject) : list string := map fst o.

(** [o.key = value] on an object that has no such key yet. *)
Definition assign (o : JsObject) (key : string) (value : JsValue) : JsObject :=
  (o ++ [(key, value)])%list.

(** The line feed and the double quote inside a literal. *)
Definition nl : string := String (ascii_of_nat 10) EmptyString.
Definition dq : string := String (ascii_of_nat 34) EmptyString.

(** [if (s)] for [s : string | undefined]: the empty string and
    [undefined] are falsy. *)
Definition truthy (v : option string) : bool :=
  match v with
  | Some EmptyString => false
  | Some _ => true
  | None => false
  end.

(** [if (a)] for [a : string[] | undefined]: every array is truthy, the
    empty one too. *)
Definition truthyArray (v : option (list string)) : bool :=
  match v with
  | Some _ => true
  | None => false
  end.

(** [`${s}`] for [s : string | undefined]. *)
Definition tpl (v : option string) : string :=
  match v with
  | Some s => s
  | None => "undefined"
  end.

(** [a || b] on strings. *)
Definition orElse (a : option string) (b : string) : string :=
  match a with
  | Some EmptyString => b
  | Some s => s
  | None => b
  end.

(** [Array.prototype.join]. *)
Fixpoint join (sep : string) (parts : list string) : string :=
  match parts with
  | [] => EmptyString
  | [p] => p
  | p :: rest => p ++ sep ++ join sep rest
  end.

(** [ErrorCode] of the SDK, the members the adapter uses. *)
Inductive ErrorCode : Type :=
| InvalidRequest
| MethodNotFound
| InternalError.

(** What a [throw] carries.  [McpError] holds the [message] property the
    SDK constructor computed. *)
Inductive Thrown : Type :=
| JsError (message : string)
| McpError (code : ErrorCode) (message : string)
| NonError (rendering : string).

(** [error instanceof Error ? error.message : String(error)] *)
Definition errorMessage (error : Thrown) : string :=
  match error with
  | JsError message => message
  | McpError _ message => message
  | NonError rendering => rendering
  end.

Inductive Outcome (A : Type) : Type :=
| Return (value : A)
| Throw (error : Thrown).
Arguments Return {A} value.
Arguments Throw {A} error.

(** An [async] computation over a state [S]. *)
Definition Async (S A : Type) : Type := S -> Outcome A * S.

Definition ret {S A : Type} (value : A) : Async S A :=
  fun s => (Return value, s).

Definition throw {S A : Type} (error : Thrown) : Async S A :=
  fun s => (Throw error, s).

Definition bind {S A B : Type} (m : Async S A) (k : A -> Async S B) : Async S B :=
  fun s =>
    match m s with
    | (Return a, s') => k a s'
    | (Throw e, s') => (Throw e, s')
    end.

(** [try { body } catch (error) { handler }] *)
Definition tryCatch {S A : Type} (body : Async S A) (handler : Thrown -> Async S A)
  : Async S A :=
  fun s =>
    match body s with
    | (Return a, s') => (Return a, s')
    | (Throw e, s') => handler e s'
    end.

End Js.

Import Js.

Declare Scope async_scope.
Delimit Scope async_scope with async.
Notation "x <- 'await' m ;; k" := (bind m (fun x => k))
  (at level 61, m at next level, right associativity) : async_scope.
Notation "'try' body 'catch' handler" := (tryCatch body handler)
  (at level 62, body at level 61, handler at level 61) : async_scope.
Open Scope async_scope.

(* ------------------------------------------------------------------------- *)
(** ** src/sliteApi.ts *)

Module SliteNote.
Record t : Type := {
  id : string;
  title : string;
  markdown : option string;
  parentNoteId : option string;
  attributes : option (list string);
  createdAt : string;
  updatedAt : string
}.
End SliteNote.

Module SliteSearchResult.
Record t : Type := {
  id : string;
  title : string;
  snippet : option string;
  type : string
}.
End SliteSearchResult.

Module Axios.

Inductive Method : Type := GET | POST | PUT.

(** One call on the axios instance: [api.get(url, {params})],
    [api.post(url, data)], [api.put(url, data)]. *)
Record Request : Type := {
  method : Method;
  url : string;
  params : JsObject;
  data : option JsObject
}.

Definition get (url : string) (params : JsObject) : Request :=
  {| method := GET; url := url; params := params; data := None |}.

Definition post (url : string) (payload : JsObject) : Request :=
  {| method := POST; url := url; params := []; data := Some payload |}.

Definition put (url : string) (payload : JsObject) : Request :=
  {| method := PUT; url := url; params := []; data := Some payload |}.

(** The remote service as the instance sees it.  A request either throws or
    answers with [response.data], an untyped payload, and moves the service to
    its next state.  [asNote] is the payload read as a [SliteNote], the type
    the client's methods return it at.  [results] is the read of
    [response.data.results]: the key, present or not, or the [TypeError] the
    engine throws when the payload is null or undefined and has no keys to
    read. *)
Record Remote : Type := {
  World : Type;
  Any : Type;
  serve : Request -> World -> (Thrown + Any) * World;
  asNote : Any -> SliteNote.t;
  results : Any -> Thrown + option (list SliteSearchResult.t)
}.

Section Instance.
Context (R : Remote).

(** The service together with the requests issued so far. *)
Record Net : Type := {
  world : World R;
  sent : list Request
}.

Definition answered (answer : Thrown + Any R) : Outcome (Any R) :=
  match answer with
  | inl error => Throw error
  | inr payload => Return payload
  end.

Definition after (net : Net) (w : World R) (request : Request) : Net :=
  {| world := w; sent := (sent net ++ [request])%list |}.

(** [await this.api.get(...)], [post], [put]: the request is logged, the
    service answers. *)
Definition send (request : Request) : Async Net (Any R) :=
  fun net =>
    let (answer, w) := serve R request (world net) in
    (answered answer, after net w request).

End Instance.

Arguments world {R} n.
Arguments sent {R} n.
Arguments answered {R} answer.
Arguments after {R} net w request.
Arguments send {R} request.

End Axios.

Module SliteApiClient.
Import Axios.

Inductive Format : Type := md | html.

Definition formatName (format : Format) : string :=
  match format with
  | md => "md"
  | html => "html"
  end.

Definition baseURL : string := "https://api.slite.com/v1".

Section Client.
Context (R : Remote).

Definition getNote (noteId : option string) (format : option Format)
  : Async (Net R) SliteNote.t :=
  let format := match format with Some f => f | None => md end in
  try
    response <- await send (get ("/notes/" ++ tpl noteId ++ "?format=" ++ formatName format) []) ;;
    ret (asNote R response)
  catch (fun error =>
    throw (JsError ("Failed to fetch note " ++ tpl noteId ++ ": " ++ errorMessage error))).

Definition createNote (title markdown parentNoteId templateId : option string)
    (attributes : option (list string)) : Async (Net R) SliteNote.t :=
  try
    let payload : JsObject :=
      [("title", ofString title); ("markdown", ofString markdown)] in
    let payload :=
      if truthy parentNoteId
      then assign payload "parentNoteId" (ofString parentNoteId) else payload in
    let payload :=
      if truthy templateId
      then assign payload "templateId" (ofString templateId) else payload in
    let payload :=
      match attributes with
      | Some items =>
          if (0 <? List.length items)%nat
          then assign payload "attributes" (JsArray items) else payload
      | None => payload
      end in
    response <- await send (post "/notes" payload) ;;
    ret (asNote R response)
  catch (fun error =>
    throw (JsError ("Failed to create note: " ++ errorMessage error))).

Definition updateNote (noteId : option string) (updates : JsObject)
  : Async (Net R) SliteNote.t :=
  try
    response <- await send (put ("/notes/" ++ tpl noteId) updates) ;;
    ret (asNote R response)
  catch (fun error =>
    throw (JsError ("Failed to update note " ++ tpl noteId ++ ": " ++ errorMessage error))).

Definition searchNotes (query : option string) (limit : option Z)
  : Async (Net R) (list SliteSearchResult.t) :=
  let limit := match limit with Some l => l | None => 10%Z end in
  try
    response <- await send
      (get "/search-notes" [("q", ofString query); ("limit", JsNumber limit)]) ;;
    match results R response with
    | inl typeError => throw typeError
    | inr (Some found) => ret found
    | inr None => ret []
    end
  catch (fun error =>
    throw (JsError ("Failed to search for " ++ dq ++ tpl query ++ dq ++ ": "
                      ++ errorMessage error))).

Definition getAskInfo : Async (Net R) (Any R) :=
  try
    response <- await send (get "/ask" []) ;;
    ret response
  catch (fun error =>
    throw (JsError ("Failed to fetch Ask info: " ++ errorMessage error))).

Definition getAskIndex : Async (Net R) (Any R) :=
  try
    response <- await send (get "/ask/index" []) ;;
    ret response
  catch (fun error =>
    throw (JsError ("Failed to fetch Ask index: " ++ errorMessage error))).

Definition getAutomationAssistant (assistantId : option string)
  : Async (Net R) (Any R) :=
  try
    response <- await send (get ("/super/automation/" ++ tpl assistantId) []) ;;
    ret response
  catch (fun error =>
    throw (JsError ("Failed to fetch automation assistant " ++ tpl assistantId
                      ++ ": " ++ errorMessage error))).

End Client.

End SliteApiClient.

(* ------------------------------------------------------------------------- *)
(** ** The protocol surface: what handlers receive and return *)

(** [request.params.arguments] of a tools/call: the keys the tool schemas
    declare, each present or not. *)
Module Arguments.
Record t : Type := {
  query : option string;
  limit : option Z;
  title : option string;
  markdown : option string;
  parentNoteId : option string;
  templateId : option string;
  attributes : option (list string);
  noteId : option string;
  assistantId : option string
}.

Definition empty : t :=
  {| query := None; limit := None; title := None; markdown := None;
     parentNoteId := None; templateId := None; attributes := None;
     noteId := None; assistantId := None |}.
End Arguments.

(** [request.params] of a tools/call; [arguments] itself is optional. *)
Module CallToolRequest.
Record t : Type := {
  name : string;
  arguments : option Arguments.t
}.
End CallToolRequest.

Module CallToolResult.
(** [{ type: 'text', text }], the only block the adapter builds. *)
Inductive Content : Type := Text (text : string).

(** [isError] is [None] when the object literal has no such key. *)
Record t : Type := {
  content : list Content;
  isError : option bool
}.
End CallToolResult.

Module ReadResourceResult.
Record Contents : Type := {
  uri : string;
  title : string;
  text : string
}.

Record t : Type := { contents : list Contents }.
End ReadResourceResult.

Module Resource.
Record t : Type := {
  uri : string;
  name : string;
  description : string
}.
End Resource.

Module ResourceTemplate.
Record t : Type := {
  uriTemplate : string;
  name : string;
  description : string
}.
End ResourceTemplate.

Module Tool.
Inductive SchemaType : Type := TString | TNumber | TArrayOfString.

Record Property : Type := {
  key : string;
  type : SchemaType;
  about : string
}.

Record t : Type := {
  name : string;
  description : string;
  properties : list Property;
  required : list string
}.
End Tool.

(** [switch (name) { case label: ... }]: the first label strictly equal to
    the scrutinee selects the branch, no label selects [default]. *)
Fixpoint switch {B : Type} (name : string) (cases : list (string * B)) : option B :=
  match cases with
  | [] => None
  | (label, branch) :: rest =>
      if String.eqb name label then Some branch else switch name rest
  end.

(** [/^slite:\/\/notes(?:\/([^/]+))?$/] as a matcher.  [stripPrefix] consumes
    a literal, [noSlash] recognises [[^/]*]. *)
Fixpoint stripPrefix (literal s : string) : option string :=
  match literal with
  | EmptyString => Some s
  | String c literal' =>
      match s with
      | EmptyString => None
      | String d s' => if Ascii.eqb c d then stripPrefix literal' s' else None
      end
  end.

Fixpoint noSlash (s : string) : bool :=
  match s with
  | EmptyString => true
  | String c s' => negb (Ascii.eqb c "/"%char) && noSlash s'
  end.

(** The result of [uri.match(...)]: [None] for [null], otherwise the capture
    group [match[1]], itself [None] when the optional group took no part. *)
Definition matchNotesUri (uri : string) : option (option string) :=
  match stripPrefix "slite://notes" uri with
  | None => None
  | Some EmptyString => Some None
  | Some (String c segment) =>
      if Ascii.eqb c "/"%char
      then match segment with
           | EmptyString => None
           | String _ _ => if noSlash segment then Some (Some segment) else None
           end
      else None
  end.

(* ------------------------------------------------------------------------- *)
(** ** src/index.ts *)

Module SliteServer.
Import Axios SliteApiClient.

Definition listResources : list Resource.t :=
  [ {| Resource.uri := "slite://notes";
       Resource.name := "All notes";
       Resource.description := "List of all Slite notes" |} ].

Definition listResourceTemplates : list ResourceTemplate.t :=
  [ {| ResourceTemplate.uriTemplate := "slite://notes/{noteId}";
       ResourceTemplate.name := "Note by ID";
       ResourceTemplate.description := "Get a specific Slite note by ID" |} ].

Definition property (key : string) (type : Tool.SchemaType) (about : string)
  : Tool.Property :=
  {| Tool.key := key; Tool.type := type; Tool.about := about |}.

(** The [tools] array of the tools/list handler. *)
Definition listTools : list Tool.t :=
  [ {| Tool.name := "search-notes";
       Tool.description := "Search for notes in Slite";
       Tool.properties :=
         [ property "query" Tool.TString "The search query";
           property "limit" Tool.TNumber "Maximum number of results to return" ];
       Tool.required := ["query"] |};
    {| Tool.name := "create-note";
       Tool.description := "Create a new note in Slite";
       Tool.properties :=
         [ property "title" Tool.TString "Note title";
           property "markdown" Tool.TString "Note content in markdown format";
           property "parentNoteId" Tool.TString "Parent note ID";
           property "templateId" Tool.TString "Template ID to use";
           property "attributes" Tool.TArrayOfString "Note attributes" ];
       Tool.required := ["title"; "markdown"] |};
    {| Tool.name := "update-note";
       Tool.description := "Update an existing note in Slite";
       Tool.properties :=
         [ property "noteId" Tool.TString "Note ID to update";
           property "title" Tool.TString "New note title";
           property "markdown" Tool.TString "New note content in markdown format";
           property "parentNoteId" Tool.TString "New parent note ID";
           property "attributes" Tool.TArrayOfString "New note attributes" ];
       Tool.required := ["noteId"] |};
    {| Tool.name := "get-ask-info";
       Tool.description := "Get Slite Ask information";
       Tool.properties := [];
       Tool.required := [] |};
    {| Tool.name := "get-ask-index";
       Tool.description := "Get Slite Ask index information";
       Tool.properties := [];
       Tool.required := [] |};
    {| Tool.name := "get-automation-assistant";
       Tool.description := "Get automation assistant information";
       Tool.properties :=
         [ property "assistantId" Tool.TString "Assistant ID to retrieve" ];
       Tool.required := ["assistantId"] |} ].

(** The [case] clauses of the tools/call handler, in source order. *)
Inductive Case : Type :=
| SearchNotes
| CreateNote
| UpdateNote
| GetAskInfo
| GetAskIndex
| GetAutomationAssistant.

Definition cases : list (string * Case) :=
  [ ("search-notes", SearchNotes);
    ("create-note", CreateNote);
    ("update-note", UpdateNote);
    ("get-ask-info", GetAskInfo);
    ("get-ask-index", GetAskIndex);
    ("get-automation-assistant", GetAutomationAssistant) ].

Definition text (s : string) : CallToolResult.t :=
  {| CallToolResult.content := [CallToolResult.Text s];
     CallToolResult.isError := None |}.

Section Server.
Context (R : Remote).

(** The [message] property [new McpError(code, message)] ends up with. *)
Variable McpError_message : ErrorCode -> string -> string.

(** [JSON.stringify(value, null, 2)] on a note and on an untyped payload. *)
Variable stringifyNote : SliteNote.t -> string.
Variable stringify : Any R -> string.

(** The message of the [TypeError] raised by [const { key, ... } = args]
    when [args] is [undefined]; it names [key], the first key of the
    pattern. *)
Variable destructureUndefined : string -> string.

Definition newMcpError (code : ErrorCode) (message : string) : Thrown :=
  McpError code (McpError_message code message).

(** The resources/read handler. *)
Definition readResource (uri : string) : Async (Net R) ReadResourceResult.t :=
  match matchNotesUri uri with
  | None => throw (newMcpError InvalidRequest ("Invalid URI format: " ++ uri))
  | Some noteId =>
      try
        (if truthy noteId
         then
           note <- await getNote R noteId None ;;
           ret {| ReadResourceResult.contents :=
                    [ {| ReadResourceResult.uri := uri;
                         ReadResourceResult.title := SliteNote.title note;
                         ReadResourceResult.text :=
                           orElse (SliteNote.markdown note) (stringifyNote note) |} ] |}
         else
           ret {| ReadResourceResult.contents :=
                    [ {| ReadResourceResult.uri := uri;
                         ReadResourceResult.title := "All Notes";
                         ReadResourceResult.text :=
                           "This would list all notes from Slite. In a real implementation, you would fetch all notes from the Slite API." |} ] |})
      catch (fun error =>
        throw (newMcpError InternalError
                 ("Failed to fetch note information: " ++ errorMessage error)))
  end.

Definition destructure {A : Type} (key : string) (args : option Arguments.t)
    (k : Arguments.t -> Async (Net R) A) : Async (Net R) A :=
  match args with
  | Some a => k a
  | None => throw (JsError (destructureUndefined key))
  end.

Definition formatItem (item : SliteSearchResult.t) : string :=
  "- " ++ SliteSearchResult.title item ++ ": "
    ++ orElse (SliteSearchResult.snippet item) "No snippet available"
    ++ " (" ++ SliteSearchResult.type item ++ ")".

(** The body of one [case] clause. *)
Definition runCase (c : Case) (args : option Arguments.t)
  : Async (Net R) CallToolResult.t :=
  match c with
  | SearchNotes =>
      destructure "query" args (fun a =>
        let query := Arguments.query a in
        let limit := match Arguments.limit a with Some l => l | None => 10%Z end in
        results <- await searchNotes R query (Some limit) ;;
        ret (text ("Search results for " ++ dq ++ tpl query ++ dq ++ ":" ++ nl ++ nl
                     ++ join nl (map formatItem results))))
  | CreateNote =>
      destructure "title" args (fun a =>
        note <- await createNote R (Arguments.title a) (Arguments.markdown a)
                  (Arguments.parentNoteId a) (Arguments.templateId a)
                  (Arguments.attributes a) ;;
        ret (text ("Note created successfully!" ++ nl
                     ++ "Title: " ++ SliteNote.title note ++ nl
                     ++ "ID: " ++ SliteNote.id note)))
  | UpdateNote =>
      destructure "noteId" args (fun a =>
        let noteId := Arguments.noteId a in
        let title := Arguments.title a in
        let markdown := Arguments.markdown a in
        let parentNoteId := Arguments.parentNoteId a in
        let attributes := Arguments.attributes a in
        if negb (truthy title) && negb (truthy markdown)
           && negb (truthy parentNoteId) && negb (truthyArray attributes)
        then ret (text "You must provide at least one field to update.")
        else
          let updates : JsObject := [] in
          let updates :=
            if truthy title then assign updates "title" (ofString title) else updates in
          let updates :=
            if truthy markdown
            then assign updates "markdown" (ofString markdown) else updates in
          let updates :=
            if truthy parentNoteId
            then assign updates "parentNoteId" (ofString parentNoteId) else updates in
          let updates :=
            if truthyArray attributes
            then assign updates "attributes" (ofArray attributes) else updates in
          note <- await updateNote R noteId updates ;;
          ret (text ("Note updated successfully!" ++ nl
                       ++ "Title: " ++ SliteNote.title note ++ nl
                       ++ "ID: " ++ SliteNote.id note)))
  | GetAskInfo =>
      askInfo <- await getAskInfo R ;;
      ret (text ("Slite Ask Information:" ++ nl ++ stringify askInfo))
  | GetAskIndex =>
      indexInfo <- await getAskIndex R ;;
      ret (text ("Slite Ask Index Information:" ++ nl ++ stringify indexInfo))
  | GetAutomationAssistant =>
      destructure "assistantId" args (fun a =>
        assistant <- await getAutomationAssistant R (Arguments.assistantId a) ;;
        ret (text ("Automation Assistant Information:" ++ nl ++ stringify assistant)))
  end.

(** The tools/call handler. *)
Definition callTool (request : CallToolRequest.t) : Async (Net R) CallToolResult.t :=
  let name := CallToolRequest.name request in
  let args := CallToolRequest.arguments request in
  try
    match switch name cases with
    | Some c => runCase c args
    | None => throw (newMcpError MethodNotFound ("Unknown tool: " ++ name))
    end
  catch (fun error =>
    ret {| CallToolResult.content :=
             [CallToolResult.Text ("Error: " ++ errorMessage error)];
           CallToolResult.isError := Some true |}).

End Server.

End SliteServer.

(* ------------------------------------------------------------------------- *)
(** ** src/stdio-server.ts

    [McpServer] validates the arguments against the zod shape before it calls
    a tool's callback, so a callback receives its required keys as strings. *)

Module StdioServer.
Import Axios SliteApiClient.

Definition text (s : string) : CallToolResult.t :=
  {| CallToolResult.content := [CallToolResult.Text s];
     CallToolResult.isError := None |}.

Definition formatItem (item : SliteSearchResult.t) : string :=
  "- " ++ SliteSearchResult.title item ++ ": "
    ++ orElse (SliteSearchResult.snippet item) "No snippet available"
    ++ " (" ++ SliteSearchResult.type item ++ ")".

Section Tools.
Context (R : Remote).
Variable stringify : Any R -> string.

(** [server.tool("search-notes", ...)] *)
Definition searchNotesTool (query : string) (limit : option Z)
  : Async (Net R) CallToolResult.t :=
  let limit := match limit with Some l => l | None => 10%Z end in
  try
    results <- await searchNotes R (Some query) (Some limit) ;;
    ret (text ("Search results for " ++ dq ++ query ++ dq ++ ":" ++ nl ++ nl
                 ++ join nl (map formatItem results)))
  catch (fun error =>
    ret (text ("Failed to search: " ++ errorMessage error))).

(** [server.tool("create-note", ...)] *)
Definition createNoteTool (title markdown : string) (parentNoteId : option string)
    (attributes : option (list string)) : Async (Net R) CallToolResult.t :=
  try
    note <- await createNote R (Some title) (Some markdown) parentNoteId None attributes ;;
    ret (text ("Note created successfully!" ++ nl
                 ++ "Title: " ++ SliteNote.title note ++ nl
                 ++ "ID: " ++ SliteNote.id note))
  catch (fun error =>
    ret (text ("Failed to create note: " ++ errorMessage error))).

(** [server.tool("update-note", ...)] *)
Definition updateNoteTool (noteId : string) (title markdown parentNoteId : option string)
    (attributes : option (list string)) : Async (Net R) CallToolResult.t :=
  if negb (truthy title) && negb (truthy markdown)
     && negb (truthy parentNoteId) && negb (truthyArray attributes)
  then ret (text "You must provide at least one field to update.")
  else
    try
      let updates : JsObject := [] in
      let updates :=
        if truthy title then assign updates "title" (ofString title) else updates in
      let updates :=
        if truthy markdown
        then assign updates "markdown" (ofString markdown) else updates in
      let updates :=
        if truthy parentNoteId
        then assign updates "parentNoteId" (ofString parentNoteId) else updates in
      let updates :=
        if truthyArray attributes
        then assign updates "attributes" (ofArray attributes) else updates in
      note <- await updateNote R (Some noteId) updates ;;
      ret (text ("Note updated successfully!" ++ nl
                   ++ "Title: " ++ SliteNote.title note ++ nl
                   ++ "ID: " ++ SliteNote.id note))
    catch (fun error =>
      ret (text ("Failed to update note: " ++ errorMessage error))).

(** [server.tool("get-ask-info", ...)] *)
Definition getAskInfoTool : Async (Net R) CallToolResult.t :=
  try
    askInfo <- await getAskInfo R ;;
    ret (text ("Slite Ask Information:" ++ nl ++ stringify askInfo))
  catch (fun error =>
    ret (text ("Failed to get Ask info: " ++ errorMessage error))).

End Tools.

End StdioServer.

(* ------------------------------------------------------------------------- *)
(** ** Vocabulary of the properties *)

(** The names the tools/list catalog advertises, and the labels the
    tools/call switch handles. *)
Definition catalog : list string := map Tool.name SliteServer.listTools.
Definition labels : list string := map fst SliteServer.cases.


(** [v] is absent or the empty string. *)
Definition Blank (v : option string) : Prop :=
  v = None \/ v = Some EmptyString.

(** An update that names no field: every string field absent or empty, no
    attributes. *)
Definition NothingToUpdate (title markdown parentNoteId : option string)
    (attributes : option (list string)) : Prop :=
  Blank title /\ Blank markdown /\ Blank parentNoteId /\ attributes = None.

(** A single path segment: not empty, no slash. *)
Definition SingleSegment (id : string) : Prop :=
  id <> EmptyString /\ forall before after, id <> before ++ "/" ++ after.

(** The resource URIs of the adapter: [slite://notes] and
    [slite://notes/{id}]. *)
Definition NotesUri (uri : string) : Prop :=
  uri = "slite://notes" \/
  exists id, SingleSegment id /\ uri = "slite://notes/" ++ id.

(** The endpoint of the service behind each tool of the catalog. *)
Inductive Endpoint : string -> Arguments.t -> Axios.Method -> string -> Prop :=
| EndpointSearch a : Endpoint "search-notes" a Axios.GET "/search-notes"
| EndpointCreate a : Endpoint "create-note" a Axios.POST "/notes"
| EndpointUpdate a :
    Endpoint "update-note" a Axios.PUT ("/notes/" ++ tpl (Arguments.noteId a))
| EndpointAskInfo a : Endpoint "get-ask-info" a Axios.GET "/ask"
| EndpointAskIndex a : Endpoint "get-ask-index" a Axios.GET "/ask/index"
| EndpointAssistant a :
    Endpoint "get-automation-assistant" a Axios.GET
      ("/super/automation/" ++ tpl (Arguments.assistantId a)).

(** Concrete services and parameters to run the adapter on. *)
Module Demo.
Import Axios.

(** The message an [McpError] of the SDK carries: the JSON-RPC number of the
    code, then the text. *)
Definition codeNumber (code : ErrorCode) : string :=
  match code with
  | InvalidRequest => "-32600"
  | MethodNotFound => "-32601"
  | InternalError => "-32603"
  end.

Definition message (code : ErrorCode) (text : string) : string :=
  "MCP error " ++ codeNumber code ++ ": " ++ text.

Definition status500 : Thrown := JsError "Request failed with status code 500".

Definition note (body : option string) : SliteNote.t :=
  {| SliteNote.id := "abc123";
     SliteNote.title := "Greeting";
     SliteNote.markdown := body;
     SliteNote.parentNoteId := None;
     SliteNote.attributes := None;
     SliteNote.createdAt := "2024-01-01T00:00:00Z";
     SliteNote.updatedAt := "2024-01-02T00:00:00Z" |}.

(** A service that answers every request with HTTP 500. *)
Definition down : Remote :=
  {| World := unit;
     Any := unit;
     serve := fun _ w => (inl status500, w);
     asNote := fun _ => note None;
     results := fun _ => inr None |}.

Definition hit : SliteSearchResult.t :=
  {| SliteSearchResult.id := "abc123";
     SliteSearchResult.title := "Greeting";
     SliteSearchResult.snippet := None;
     SliteSearchResult.type := "note" |}.

(** A service that counts the requests it served and answers each of them
    with a payload that reads as the same note and as a one-entry result
    list. *)
Definition up (body : option string) : Remote :=
  {| World := nat;
     Any := unit;
     serve := fun _ w => (inr tt, S w);
     asNote := fun _ => note body;
     results := fun _ => inr (Some [hit]) |}.

Definition dumpNote (n : SliteNote.t) : string :=
  "{ id: " ++ SliteNote.id n ++ ", title: " ++ SliteNote.title n ++ " }".

Definition dump (payload : unit) : string := "{}".

Definition typeError (key : string) : string :=
  "Cannot destructure property '" ++ key ++ "' of 'args' as it is undefined.".

Definition quiet (R : Remote) (w : World R) : Net R :=
  {| world := w; sent := [] |}.

(** The arguments of a search-notes call without a limit. *)
Definition searching (query : string) : Arguments.t :=
  {| Arguments.query := Some query; Arguments.limit := None;
     Arguments.title := None; Arguments.markdown := None;
     Arguments.parentNoteId := None; Arguments.templateId := None;
     Arguments.attributes := None; Arguments.noteId := None;
     Arguments.assistantId := None |}.

(** The arguments of an update-note call. *)
Definition updating (noteId : string) (title markdown : option string) : Arguments.t :=
  {| Arguments.query := None; Arguments.limit := None;
     Arguments.title := title; Arguments.markdown := markdown;
     Arguments.parentNoteId := None; Arguments.templateId := None;
     Arguments.attributes := None; Arguments.noteId := Some noteId;
     Arguments.assistantId := None |}.

Definition call (name : string) (args : Arguments.t) : CallToolRequest.t :=
  {| CallToolRequest.name := name; CallToolRequest.arguments := Some args |}.

(** A service that answers every request with a payload that has no
    results key. *)
Definition silent : Remote :=
  {| World := nat;
     Any := unit;
     serve := fun _ w => (inr tt, S w);
     asNote := fun _ => note None;
     results := fun _ => inr None |}.

(** A service that answers every request with the body null. *)
Definition readNull : Thrown :=
  JsError "Cannot read properties of null (reading 'results')".

Definition null : Remote :=
  {| World := nat;
     Any := unit;
     serve := fun _ w => (inr tt, S w);
     asNote := fun _ => note None;
     results := fun _ => inl readNull |}.


End Demo.

(* ------------------------------------------------------------------------- *)
(** ** Strings and the URI pattern *)

Lemma stripPrefix_app (literal rest : string) :
  stripPrefix literal (literal ++ rest) = Some rest.
Proof.
  induction literal as [|c literal IH]; simpl.
  - reflexivity.
  - rewrite Ascii.eqb_refl. exact IH.
Qed.

Lemma stripPrefix_Some (literal s rest : string) :
  stripPrefix literal s = Some rest -> s = literal ++ rest.
Proof.
  revert s. induction literal as [|c literal IH]; intros s H; simpl in *.
  - congruence.
  - destruct s as [|d s]; [discriminate|].
    destruct (Ascii.eqb c d) eqn:E; [|discriminate].
    apply Ascii.eqb_eq in E. subst d. f_equal. auto.
Qed.

Lemma noSlash_true_iff (s : string) :
  noSlash s = true <-> forall before after, s <> before ++ "/" ++ after.
Proof.
  induction s as [|c s IH]; simpl.
  - split; [|reflexivity]. intros _ [|x before] after; discriminate.
  - rewrite andb_true_iff, negb_true_iff, IH. split.
    + intros [Hc Hs] [|x before] after; simpl; intros E; inversion E; subst.
      * rewrite Ascii.eqb_refl in Hc. discriminate.
      * eapply Hs. reflexivity.
    + intros H. split.
      * destruct (Ascii.eqb c "/") eqn:E; [|reflexivity].
        apply Ascii.eqb_eq in E. subst c.
        exfalso. apply (H EmptyString s). reflexivity.
      * intros before after E. apply (H (String c before) after).
        simpl. now rewrite E.
Qed.

Lemma matchNotesUri_bare : matchNotesUri "slite://notes" = Some None.
Proof. reflexivity. Qed.

Lemma matchNotesUri_note (id : string) :
  SingleSegment id -> matchNotesUri ("slite://notes/" ++ id) = Some (Some id).
Proof.
  intros [Hne Hslash]. unfold matchNotesUri.
  change ("slite://notes/" ++ id) with ("slite://notes" ++ String "/" id).
  rewrite stripPrefix_app. simpl.
  destruct id as [|c id]; [congruence|].
  apply noSlash_true_iff in Hslash. now rewrite Hslash.
Qed.

Lemma matchNotesUri_Some (uri : string) (group : option string) :
  matchNotesUri uri = Some group -> NotesUri uri.
Proof.
  unfold matchNotesUri.
  destruct (stripPrefix "slite://notes" uri) as [rest|] eqn:E; [|discriminate].
  apply stripPrefix_Some in E. subst uri.
  destruct rest as [|c rest]; intros H.
  - now left.
  - destruct (Ascii.eqb c "/") eqn:Ec; [|discriminate].
    apply Ascii.eqb_eq in Ec. subst c.
    destruct rest as [|d rest]; [discriminate|].
    destruct (noSlash (String d rest)) eqn:Es; [|discriminate].
    right. exists (String d rest). split; [split|reflexivity].
    + discriminate.
    + now apply noSlash_true_iff.
Qed.

Lemma matchNotesUri_None (uri : string) :
  ~ NotesUri uri -> matchNotesUri uri = None.
Proof.
  intros H. destruct (matchNotesUri uri) as [group|] eqn:E; [|reflexivity].
  exfalso. eauto using matchNotesUri_Some.
Qed.

Lemma truthy_segment (id : string) : SingleSegment id -> truthy (Some id) = true.
Proof. intros [Hne _]. destruct id; [congruence|reflexivity]. Qed.

(* ------------------------------------------------------------------------- *)
(** ** The switch and the catalog *)

Lemma switch_Some_iff {B : Type} (name : string) (cases : list (string * B)) :
  (exists branch, switch name cases = Some branch) <-> In name (map fst cases).
Proof.
  induction cases as [|[label branch] cases IH]; simpl.
  - split; [intros [? ?]; discriminate | tauto].
  - destruct (String.eqb name label) eqn:E.
    + apply String.eqb_eq in E. subst. split; eauto.
    + apply String.eqb_neq in E. rewrite IH. split; [tauto|].
      intros [H|H]; [congruence|exact H].
Qed.

Lemma switch_None {B : Type} (name : string) (cases : list (string * B)) :
  ~ In name (map fst cases) -> switch name cases = None.
Proof.
  intros H. destruct (switch name cases) as [branch|] eqn:E; [|reflexivity].
  exfalso. apply H. apply switch_Some_iff. eauto.
Qed.

(* ------------------------------------------------------------------------- *)
(** ** Properties of the client and of the two adapters *)

Section Properties.
Import Axios SliteApiClient.
Context (R : Remote).
Variable McpError_message : ErrorCode -> string -> string.
Variable stringifyNote : SliteNote.t -> string.
Variable stringify : Any R -> string.
Variable destructureUndefined : string -> string.

Abbreviation readResource := (SliteServer.readResource R McpError_message stringifyNote).
Abbreviation callTool :=
  (SliteServer.callTool R McpError_message stringify destructureUndefined).

Lemma send_eq (request : Request) (net : Net R) :
  send request net
  = (answered (fst (serve R request (world net))),
     after net (snd (serve R request (world net))) request).
Proof.
  unfold send. destruct (serve R request (world net)) as [answer w]. reflexivity.
Qed.

Lemma send_throws (request : Request) (net : Net R) (cause : Thrown) (w : World R) :
  serve R request (world net) = (inl cause, w) ->
  send request net = (Throw cause, after net w request).
Proof. intros H. rewrite send_eq, H. reflexivity. Qed.

Lemma send_returns (request : Request) (net : Net R) (payload : Any R) (w : World R) :
  serve R request (world net) = (inr payload, w) ->
  send request net = (Return payload, after net w request).
Proof. intros H. rewrite send_eq, H. reflexivity. Qed.

(** Unfolds a handler down to the calls of [send]. *)
Ltac run :=
  cbv [SliteServer.callTool SliteServer.runCase SliteServer.destructure
       SliteServer.readResource SliteServer.newMcpError SliteServer.text
       StdioServer.searchNotesTool StdioServer.createNoteTool
       StdioServer.updateNoteTool StdioServer.getAskInfoTool StdioServer.text
       getNote createNote updateNote searchNotes getAskInfo getAskIndex
       getAutomationAssistant tryCatch bind ret throw];
  cbn [CallToolRequest.name CallToolRequest.arguments].

(** Evaluates the switch on a literal name. *)
Ltac pick := cbn [switch SliteServer.cases String.eqb Ascii.eqb Bool.eqb].

(** Evaluates the remaining calls of the service and reads of the payload,
    case by case. *)
Ltac settle :=
  rewrite ?send_eq; cbn;
  repeat match goal with
         | |- context [serve R ?request ?w] =>
             destruct (serve R request w) as [[?|?] ?]; cbn
         | |- context [results R ?payload] =>
             destruct (results R payload) as [?|[?|]]; cbn
         end;
  try reflexivity.


(** C5: createNote with a title and a markdown body and no optional
    parameter issues exactly one request, POST /notes, whose payload has the
    two keys title and markdown and no other; the outcome is the created
    note, or the client's error around the cause. *)
Theorem createNote_minimal_payload (title markdown : string) (net : Net R) :
  let request :=
    post "/notes" [("title", JsString title); ("markdown", JsString markdown)] in
  createNote R (Some title) (Some markdown) None None None net
  = (match fst (serve R request (world net)) with
     | inl cause => Throw (JsError ("Failed to create note: " ++ errorMessage cause))
     | inr payload => Return (asNote R payload)
     end,
     after net (snd (serve R request (world net))) request).
Proof.
  intros request. run. cbn. fold request. rewrite send_eq.
  destruct (serve R request (world net)) as [[cause|payload] w]; reflexivity.
Qed.

(** C9: the names of the tools/list catalog are the labels of the tools/call
    switch: the two lists are equal, no label occurs twice, so every
    advertised name selects exactly one branch, and a name selects a branch
    only if it is advertised. *)
Theorem catalog_matches_switch :
  catalog = labels
  /\ NoDup labels
  /\ (forall name, In name catalog -> count_occ string_dec labels name = 1)
  /\ (forall name, In name labels -> In name catalog)
  /\ (forall name,
        In name catalog <-> exists branch, switch name SliteServer.cases = Some branch).
Proof.
  assert (Hnodup : NoDup labels).
  { unfold labels. simpl.
    repeat (constructor; [simpl; intuition discriminate|]). constructor. }
  repeat split.
  - exact Hnodup.
  - intros name H. change catalog with labels in H.
    apply (proj1 (NoDup_count_occ' string_dec labels) Hnodup). exact H.
  - intros name H. exact H.
  - intros H. apply switch_Some_iff. exact H.
  - intros H. apply switch_Some_iff in H. exact H.
Qed.

(** C1: for every tool name outside the catalog the tools/call handler sends
    nothing to the service, and the MethodNotFound error it throws is caught
    by its own catch clause: the call ends as an ordinary response, flagged as
    an error, whose text is the error's message after the prefix. *)
Theorem callTool_unknown_tool (name : string) (args : option Arguments.t) (net : Net R) :
  ~ In name catalog ->
  callTool {| CallToolRequest.name := name; CallToolRequest.arguments := args |} net
  = (Return {| CallToolResult.content :=
                 [CallToolResult.Text
                    ("Error: " ++ McpError_message MethodNotFound ("Unknown tool: " ++ name))];
               CallToolResult.isError := Some true |},
     net).
Proof.
  intros H. run. rewrite (switch_None name SliteServer.cases H). reflexivity.
Qed.

(** C7: a resources/read whose URI is neither slite://notes nor
    slite://notes/{id} with a single-segment id fails with an InvalidRequest
    error, and nothing is sent to the service. *)
Theorem readResource_invalid_uri (uri : string) (net : Net R) :
  ~ NotesUri uri ->
  readResource uri net
  = (Throw (McpError InvalidRequest
              (McpError_message InvalidRequest ("Invalid URI format: " ++ uri))),
     net).
Proof.
  intros H. run. rewrite (matchNotesUri_None uri H). reflexivity.
Qed.

(** C8: a search-notes call with a query and no limit sends one request,
    GET /search-notes, whose limit parameter is 10, in both adapters. *)
Theorem searchNotes_default_limit (a : Arguments.t) (query : string) (net : Net R) :
  Arguments.query a = Some query ->
  Arguments.limit a = None ->
  let request :=
    get "/search-notes" [("q", JsString query); ("limit", JsNumber 10)] in
  sent (snd (callTool {| CallToolRequest.name := "search-notes";
                         CallToolRequest.arguments := Some a |} net))
    = (sent net ++ [request])%list
  /\ sent (snd (StdioServer.searchNotesTool R query None net))
    = (sent net ++ [request])%list.
Proof.
  intros Hq Hl request. split; run; pick; rewrite ?Hq, ?Hl; cbn; fold request;
    settle.
Qed.

(** C4: an update-note call that carries none of title, markdown,
    parentNoteId and attributes is answered with the one text block that asks
    for a field, without the error flag, and nothing is sent to the service;
    in both adapters. *)
Theorem updateNote_without_fields (a : Arguments.t) (noteId : string) (net : Net R) :
  Arguments.title a = None ->
  Arguments.markdown a = None ->
  Arguments.parentNoteId a = None ->
  Arguments.attributes a = None ->
  let answer :=
    {| CallToolResult.content :=
         [CallToolResult.Text "You must provide at least one field to update."];
       CallToolResult.isError := None |} in
  callTool {| CallToolRequest.name := "update-note";
              CallToolRequest.arguments := Some a |} net
    = (Return answer, net)
  /\ StdioServer.updateNoteTool R noteId None None None None net
    = (Return answer, net).
Proof.
  intros Ht Hm Hp Ha answer. split; run; pick; rewrite ?Ht, ?Hm, ?Hp, ?Ha; reflexivity.
Qed.

(** C6: reading slite://notes/{id} when the service answers with a note
    sends GET /notes/{id}?format=md and returns one content entry: the URI,
    the note's title, and as text the markdown body when it is not empty,
    the JSON serialization of the note when the body is absent or empty. *)
Theorem readResource_note_text (id : string) (payload : Any R) (net : Net R) (w : World R) :
  SingleSegment id ->
  let request := get ("/notes/" ++ id ++ "?format=md") [] in
  let note := asNote R payload in
  serve R request (world net) = (inr payload, w) ->
  exists text,
    readResource ("slite://notes/" ++ id) net
    = (Return {| ReadResourceResult.contents :=
                   [ {| ReadResourceResult.uri := "slite://notes/" ++ id;
                        ReadResourceResult.title := SliteNote.title note;
                        ReadResourceResult.text := text |} ] |},
       after net w request)
    /\ (forall body,
          SliteNote.markdown note = Some body -> body <> EmptyString -> text = body)
    /\ (Blank (SliteNote.markdown note) -> text = stringifyNote note).
Proof.
  intros Hid request note Hserve.
  exists (orElse (SliteNote.markdown note) (stringifyNote note)). split.
  - run. rewrite (matchNotesUri_note id Hid), (truthy_segment id Hid).
    cbn [tpl formatName].
    erewrite send_returns by exact Hserve. reflexivity.
  - split.
    + intros body Hbody Hne. rewrite Hbody. destruct body; [congruence|reflexivity].
    + intros [H|H]; rewrite H; reflexivity.
Qed.

(** C10: update-note reads an empty title, markdown or parentNoteId as an
    absent one, in both adapters.  When every such field is absent or empty
    and there are no attributes, the call is answered with the text that asks
    for a field and nothing is sent.  Otherwise one request is sent,
    PUT /notes/{noteId}, and its payload holds exactly the fields that are
    not empty: no key of an absent or empty field, no empty string as a
    value. *)
Theorem updateNote_empty_strings_are_absent
    (a : Arguments.t) (noteId : string) (title markdown parentNoteId : option string)
    (attributes : option (list string)) (net : Net R) :
  Arguments.noteId a = Some noteId ->
  Arguments.title a = title ->
  Arguments.markdown a = markdown ->
  Arguments.parentNoteId a = parentNoteId ->
  Arguments.attributes a = attributes ->
  let request := {| CallToolRequest.name := "update-note";
                    CallToolRequest.arguments := Some a |} in
  let tool := StdioServer.updateNoteTool R noteId title markdown parentNoteId attributes in
  let answer :=
    {| CallToolResult.content :=
         [CallToolResult.Text "You must provide at least one field to update."];
       CallToolResult.isError := None |} in
  (NothingToUpdate title markdown parentNoteId attributes ->
     callTool request net = (Return answer, net) /\ tool net = (Return answer, net))
  /\
  (~ NothingToUpdate title markdown parentNoteId attributes ->
     exists updates,
       sent (snd (callTool request net))
         = (sent net ++ [put ("/notes/" ++ noteId) updates])%list
       /\ sent (snd (tool net)) = (sent net ++ [put ("/notes/" ++ noteId) updates])%list
       /\ (forall key, ~ In (key, JsString EmptyString) updates)
       /\ (Blank title -> ~ In "title" (keys updates))
       /\ (Blank markdown -> ~ In "markdown" (keys updates))
       /\ (Blank parentNoteId -> ~ In "parentNoteId" (keys updates))
       /\ (forall s, title = Some s -> s <> EmptyString ->
             In ("title", JsString s) updates)
       /\ (forall s, markdown = Some s -> s <> EmptyString ->
             In ("markdown", JsString s) updates)
       /\ (forall s, parentNoteId = Some s -> s <> EmptyString ->
             In ("parentNoteId", JsString s) updates)
       /\ (forall items, attributes = Some items ->
             In ("attributes", JsArray items) updates)).
Proof.
  intros Hid Ht Hm Hp Ha request tool answer. subst request tool answer.
  destruct a as [q l t m p tp attrs n ai]. cbn in Hid, Ht, Hm, Hp, Ha. subst.
  split.
  - intros (Bt & Bm & Bp & Battr). subst attributes.
    destruct Bt as [-> | ->], Bm as [-> | ->], Bp as [-> | ->];
      split; reflexivity.
  - intros Hnot. run. pick. cbn [Arguments.noteId Arguments.title Arguments.markdown
                                Arguments.parentNoteId Arguments.attributes].
    destruct title as [[|c1 title]|], markdown as [[|c2 markdown]|],
             parentNoteId as [[|c3 parentNoteId]|], attributes as [items|];
      try (exfalso; apply Hnot; unfold NothingToUpdate, Blank; tauto);
      cbn; eexists; (split; [settle|]); (split; [settle|]);
      unfold Blank, keys; cbn;
      repeat split; intros;
      repeat match goal with
             | H : _ \/ _ |- _ => destruct H
             | H : _ = _ |- _ => first [discriminate H | injection H as H; subst]
             end;
      try tauto; try congruence;
      try (intros Hin; repeat destruct Hin as [Hin|Hin]; congruence).
Qed.

Lemma sent_grows_not (net : Net R) (request : Request) :
  sent net <> (sent net ++ [request])%list.
Proof.
  intros H. apply (f_equal (@List.length Request)) in H.
  rewrite length_app in H. simpl in H. lia.
Qed.

Lemma sent_last (net : Net R) (r1 r2 : Request) :
  (sent net ++ [r1])%list = (sent net ++ [r2])%list -> r1 = r2.
Proof. intros H. apply app_inv_head in H. congruence. Qed.


(** Identifies the recorded answers of the service to one request, stated
    up to computation, and closes the case when they disagree. *)
Ltac same_answer :=
  repeat match goal with
         | H1 : serve R _ _ = _, H2 : serve R _ _ = _ |- _ =>
             tryif constr_eq H1 H2 then fail else
               (let H' := fresh "Hsame" in
                pose proof (eq_trans (eq_sym H1) H2) as H'; clear H1;
                first [discriminate H' | injection H' as ? ?; subst])
         end.

(** C2: a tools/call of a tool of the catalog never ends in a thrown error.
    When the service threw on the request the call sent, or answered a search
    with a payload whose results cannot be read, the response is one text
    block that starts with Error: and carries the error flag.  The four tools
    of stdio-server.ts never end in a thrown error either: they always return
    one text block without the error flag, which in those two cases starts
    with the tool's own Failed to ... prefix.  A resources/read of
    slite://notes/{id} on whose request the service throws does end in a
    thrown error: an McpError with code InternalError whose text is Failed to
    fetch note information: followed by the client's message. *)
Theorem tool_errors_absorbed_resource_errors_thrown :
  let unflagged (prefix : string) (readsResults : bool) (net : Net R)
      (run : Outcome CallToolResult.t * Net R) :=
    exists text net',
      run = (Return {| CallToolResult.content := [CallToolResult.Text text];
                       CallToolResult.isError := None |},
             net')
      /\ (forall issued cause w,
            sent net' = (sent net ++ [issued])%list ->
            serve R issued (world net) = (inl cause, w) ->
            exists detail, text = prefix ++ detail)
      /\ (forall issued payload w cause,
            readsResults = true ->
            sent net' = (sent net ++ [issued])%list ->
            serve R issued (world net) = (inr payload, w) ->
            results R payload = inl cause ->
            exists detail, text = prefix ++ detail) in
  (forall request net,
     In (CallToolRequest.name request) catalog ->
     exists result net',
       callTool request net = (Return result, net')
       /\ (forall issued cause w,
             sent net' = (sent net ++ [issued])%list ->
             serve R issued (world net) = (inl cause, w) ->
             CallToolResult.isError result = Some true
             /\ exists detail,
                  CallToolResult.content result
                  = [CallToolResult.Text ("Error: " ++ detail)])
       /\ (forall issued payload w cause,
             CallToolRequest.name request = "search-notes" ->
             sent net' = (sent net ++ [issued])%list ->
             serve R issued (world net) = (inr payload, w) ->
             results R payload = inl cause ->
             CallToolResult.isError result = Some true
             /\ exists detail,
                  CallToolResult.content result
                  = [CallToolResult.Text ("Error: " ++ detail)]))
  /\ (forall query limit net,
        unflagged "Failed to search: " true net
          (StdioServer.searchNotesTool R query limit net))
  /\ (forall title markdown parentNoteId attributes net,
        unflagged "Failed to create note: " false net
          (StdioServer.createNoteTool R title markdown parentNoteId attributes net))
  /\ (forall noteId title markdown parentNoteId attributes net,
        unflagged "Failed to update note: " false net
          (StdioServer.updateNoteTool R noteId title markdown parentNoteId attributes net))
  /\ (forall net,
        unflagged "Failed to get Ask info: " false net
          (StdioServer.getAskInfoTool R stringify net))
  /\ (forall id net cause w,
        SingleSegment id ->
        serve R (get ("/notes/" ++ id ++ "?format=md") []) (world net) = (inl cause, w) ->
        readResource ("slite://notes/" ++ id) net
        = (Throw (McpError InternalError
                    (McpError_message InternalError
                       ("Failed to fetch note information: "
                          ++ "Failed to fetch note " ++ id ++ ": " ++ errorMessage cause))),
           after net w (get ("/notes/" ++ id ++ "?format=md") []))).
Proof.
  intros unflagged. subst unflagged. repeat apply conj.
  - intros [name args] net Hin. cbn [CallToolRequest.name] in *. run.
    destruct (switch name SliteServer.cases) as [c|] eqn:Hc;
      [|destruct (proj2 (switch_Some_iff name SliteServer.cases) Hin) as [c Hsome];
        congruence].
    destruct c; cbv beta iota zeta;
      try (destruct args as [a|]; cbv beta iota zeta);
      try (destruct (negb (truthy (Arguments.title a)) && _ && _ && _)%bool);
      rewrite ?send_eq; cbn;
      repeat match goal with
             | |- context [serve R ?request ?w] =>
                 let E := fresh "E" in
                 destruct (serve R request w) as [[?|?] ?] eqn:E; cbn
             | |- context [results R ?payload] =>
                 let E := fresh "E" in
                 destruct (results R payload) as [?|[?|]] eqn:E; cbn
             end;
      do 2 eexists; (split; [reflexivity|]); cbn;
      (split;
       [ intros issued cause' w' Hsent Hserve
       | intros issued payload w' cause' Hname Hsent Hserve Hresults;
         try (subst name; vm_compute in Hc; discriminate Hc) ]);
      try (exfalso; revert Hsent; apply sent_grows_not);
      apply sent_last in Hsent; subst issued;
      same_answer; try congruence;
      (split; [reflexivity | eexists; reflexivity]).
  - intros query limit net. run.
    rewrite send_eq; cbn;
      repeat match goal with
             | |- context [serve R ?request ?w] =>
                 let E := fresh "E" in
                 destruct (serve R request w) as [[?|?] ?] eqn:E; cbn
             | |- context [results R ?payload] =>
                 let E := fresh "E" in
                 destruct (results R payload) as [?|[?|]] eqn:E; cbn
             end;
      do 2 eexists; (split; [reflexivity|]); cbn;
      (split;
       [ intros issued cause' w' Hsent Hserve
       | intros issued payload w' cause' Hreads Hsent Hserve Hresults;
         try discriminate Hreads ]);
      apply sent_last in Hsent; subst issued;
      same_answer; try congruence;
      eexists; reflexivity.
  - intros title markdown parentNoteId attributes net. run.
    rewrite send_eq; cbn;
      repeat match goal with
             | |- context [serve R ?request ?w] =>
                 let E := fresh "E" in
                 destruct (serve R request w) as [[?|?] ?] eqn:E; cbn
             end;
      do 2 eexists; (split; [reflexivity|]); cbn;
      (split;
       [ intros issued cause' w' Hsent Hserve
       | intros issued payload w' cause' Hreads Hsent Hserve Hresults;
         try discriminate Hreads ]);
      apply sent_last in Hsent; subst issued;
      same_answer; try congruence;
      eexists; reflexivity.
  - intros noteId title markdown parentNoteId attributes net. run.
    destruct (negb (truthy title) && _ && _ && _)%bool;
      rewrite ?send_eq; cbn;
      repeat match goal with
             | |- context [serve R ?request ?w] =>
                 let E := fresh "E" in
                 destruct (serve R request w) as [[?|?] ?] eqn:E; cbn
             end;
      do 2 eexists; (split; [reflexivity|]); cbn;
      (split;
       [ intros issued cause' w' Hsent Hserve
       | intros issued payload w' cause' Hreads Hsent Hserve Hresults;
         try discriminate Hreads ]);
      try (exfalso; revert Hsent; apply sent_grows_not);
      apply sent_last in Hsent; subst issued;
      same_answer; try congruence;
      eexists; reflexivity.
  - intros net. run.
    rewrite send_eq; cbn;
      repeat match goal with
             | |- context [serve R ?request ?w] =>
                 let E := fresh "E" in
                 destruct (serve R request w) as [[?|?] ?] eqn:E; cbn
             end;
      do 2 eexists; (split; [reflexivity|]); cbn;
      (split;
       [ intros issued cause' w' Hsent Hserve
       | intros issued payload w' cause' Hreads Hsent Hserve Hresults;
         try discriminate Hreads ]);
      apply sent_last in Hsent; subst issued;
      same_answer; try congruence;
      eexists; reflexivity.
  - intros id net cause w Hid Hserve. run.
    rewrite (matchNotesUri_note id Hid), (truthy_segment id Hid). cbn [tpl formatName].
    erewrite send_throws by exact Hserve. reflexivity.
Qed.

(* ------------------------------------------------------------------------- *)
(** *** Beyond the contract: the client *)

Lemma append_assoc3 (s1 s2 s3 : string) : (s1 ++ s2) ++ s3 = s1 ++ s2 ++ s3.
Proof. induction s1 as [|c s1 IH]; simpl; [reflexivity | now rewrite IH]. Qed.

(** X11: the matcher of the resource URIs is exact.  It answers with no
    capture group on slite://notes only, with the capture [id] on
    slite://notes/ followed by the single segment [id] only, and with null on
    every other string. *)
Theorem matchNotesUri_exact (uri : string) :
  (matchNotesUri uri = Some None <-> uri = "slite://notes")
  /\ (forall id,
        matchNotesUri uri = Some (Some id)
        <-> SingleSegment id /\ uri = "slite://notes/" ++ id)
  /\ (matchNotesUri uri = None <-> ~ NotesUri uri).
Proof.
  assert (Hshape : forall group,
             matchNotesUri uri = Some group ->
             match group with
             | None => uri = "slite://notes"
             | Some id => SingleSegment id /\ uri = "slite://notes/" ++ id
             end).
  { intros group. unfold matchNotesUri.
    destruct (stripPrefix "slite://notes" uri) as [rest|] eqn:E; [|discriminate].
    apply stripPrefix_Some in E. subst uri.
    destruct rest as [|c rest]; [intros [= <-]; reflexivity|].
    destruct (Ascii.eqb c "/") eqn:Ec; [|discriminate].
    apply Ascii.eqb_eq in Ec. subst c.
    destruct rest as [|d rest]; [discriminate|].
    destruct (noSlash (String d rest)) eqn:Es; [|discriminate].
    intros [= <-]. split; [split|reflexivity].
    - discriminate.
    - now apply noSlash_true_iff. }
  split; [|split].
  - split.
    + intros H. exact (Hshape None H).
    + intros ->. reflexivity.
  - intros id. split.
    + intros H. exact (Hshape (Some id) H).
    + intros [Hid ->]. now apply matchNotesUri_note.
  - split.
    + intros Hnone [-> | (id & Hid & ->)].
      * discriminate Hnone.
      * rewrite (matchNotesUri_note id Hid) in Hnone. discriminate.
    + apply matchNotesUri_None.
Qed.

(** X1: every method of the client hands exactly one request to axios,
    whatever the answer: the log grows by that request and the service moves
    to the state its answer dictates.  The request goes to the method's own
    endpoint, with the identifier or the query as the caller gave it. *)
Theorem client_sends_one_request (net : Net R) :
  let moved request := after net (snd (serve R request (world net))) request in
  (forall noteId format,
     snd (getNote R noteId format net)
     = moved (get ("/notes/" ++ tpl noteId ++ "?format="
                     ++ formatName (match format with Some f => f | None => md end)) []))
  /\ (forall title markdown parentNoteId templateId attributes,
        exists payload,
          snd (createNote R title markdown parentNoteId templateId attributes net)
          = moved (post "/notes" payload))
  /\ (forall noteId updates,
        snd (updateNote R noteId updates net)
        = moved (put ("/notes/" ++ tpl noteId) updates))
  /\ (forall query limit,
        snd (searchNotes R query limit net)
        = moved (get "/search-notes"
                   [("q", ofString query);
                    ("limit", JsNumber (match limit with Some l => l | None => 10%Z end))]))
  /\ snd (getAskInfo R net) = moved (get "/ask" [])
  /\ snd (getAskIndex R net) = moved (get "/ask/index" [])
  /\ (forall assistantId,
        snd (getAutomationAssistant R assistantId net)
        = moved (get ("/super/automation/" ++ tpl assistantId) [])).
Proof.
  intros moved. subst moved. repeat apply conj; intros;
    lazymatch goal with
    | |- exists _, _ => eexists
    | |- _ => idtac
    end;
    run; rewrite send_eq;
    match goal with
    | |- context [answered ?answer] => destruct (answered answer)
    end;
    try match goal with
        | |- context [results R ?payload] => destruct (results R payload) as [?|[?|]]
        end;
    reflexivity.
Qed.

(** X2: a method of the client throws only when axios threw or, in
    searchNotes alone, when axios answered with a payload on which the read
    of results throws, as on the body null.  What the method throws is then
    an Error whose message is the method's own prefix, naming the note, the
    query or the assistant, followed by the message of that cause; the thrown
    value itself never passes through. *)
Theorem client_throws_wrapped_cause (net : Net R) (error : Thrown) :
  let refused (cause : Thrown) :=
    exists request w, serve R request (world net) = (inl cause, w) in
  let unreadable (cause : Thrown) :=
    exists request payload w,
      serve R request (world net) = (inr payload, w)
      /\ results R payload = inl cause in
  let wrapped (prefix : string) (source : Thrown -> Prop) :=
    exists cause, source cause /\ error = JsError (prefix ++ errorMessage cause) in
  (forall noteId format,
     fst (getNote R noteId format net) = Throw error ->
     wrapped ("Failed to fetch note " ++ tpl noteId ++ ": ") refused)
  /\ (forall title markdown parentNoteId templateId attributes,
        fst (createNote R title markdown parentNoteId templateId attributes net)
        = Throw error ->
        wrapped "Failed to create note: " refused)
  /\ (forall noteId updates,
        fst (updateNote R noteId updates net) = Throw error ->
        wrapped ("Failed to update note " ++ tpl noteId ++ ": ") refused)
  /\ (forall query limit,
        fst (searchNotes R query limit net) = Throw error ->
        wrapped ("Failed to search for " ++ dq ++ tpl query ++ dq ++ ": ")
          (fun cause => refused cause \/ unreadable cause))
  /\ (fst (getAskInfo R net) = Throw error ->
      wrapped "Failed to fetch Ask info: " refused)
  /\ (fst (getAskIndex R net) = Throw error ->
      wrapped "Failed to fetch Ask index: " refused)
  /\ (forall assistantId,
        fst (getAutomationAssistant R assistantId net) = Throw error ->
        wrapped ("Failed to fetch automation assistant " ++ tpl assistantId ++ ": ")
          refused).
Proof.
  intros refused unreadable wrapped. subst refused unreadable wrapped.
  repeat apply conj; intros *; run;
    rewrite send_eq;
    match goal with
    | |- context [serve R ?request ?w] =>
        destruct (serve R request w) as [[cause|payload] w'] eqn:E
    end;
    cbn;
    try match goal with
        | |- context [results R ?p] =>
            destruct (results R p) as [cause|[found|]] eqn:Er; cbn
        end;
    intros [= <-];
    exists cause;
    (split; [| rewrite ?append_assoc3; reflexivity]);
    first [ do 2 eexists; exact E
          | left; do 2 eexists; exact E
          | right; do 3 eexists; split; [exact E | exact Er] ].
Qed.

(** Decides a goal about a payload that is a literal list. *)
Ltac literal :=
  unfold Blank, keys in *; cbn in *;
  repeat match goal with
         | H : False |- _ => destruct H
         | H : _ /\ _ |- _ => destruct H
         | H : _ \/ _ |- _ => destruct H
         | H : exists _, _ |- _ => destruct H
         | H : ~ (_ \/ _) |- _ => exfalso; apply H; tauto
         | H : _ = _ |- _ => first [discriminate H | injection H as H; subst | subst]
         | H : ?x <> ?x |- _ => destruct (H eq_refl)
         end;
  try tauto; try congruence.

(** X5: the payload createNote posts is the title and the markdown, in that
    order, followed by the optional keys that are worth sending: parentNoteId
    and templateId when they are not empty, attributes when the list is not
    empty; each with the value the caller gave, none twice. *)
Theorem createNote_payload
    (title markdown parentNoteId templateId : option string)
    (attributes : option (list string)) (net : Net R) :
  exists optional,
    sent (snd (createNote R title markdown parentNoteId templateId attributes net))
    = (sent net
         ++ [post "/notes"
               ([("title", ofString title); ("markdown", ofString markdown)]
                  ++ optional)])%list
    /\ (forall value,
          In ("parentNoteId", value) optional
          <-> value = ofString parentNoteId /\ ~ Blank parentNoteId)
    /\ (forall value,
          In ("templateId", value) optional
          <-> value = ofString templateId /\ ~ Blank templateId)
    /\ (forall value,
          In ("attributes", value) optional
          <-> exists items,
                attributes = Some items /\ items <> [] /\ value = JsArray items)
    /\ incl (keys optional) ["parentNoteId"; "templateId"; "attributes"]
    /\ NoDup (keys optional).
Proof.
  destruct parentNoteId as [[|c1 parentNoteId]|], templateId as [[|c2 templateId]|],
           attributes as [[|item items]|];
    run; cbn; eexists;
    (split;
     [ rewrite send_eq;
       match goal with
       | |- context [answered ?answer] => destruct (answered answer)
       end;
       cbn; change (?a :: ?b :: ?rest) with ([a; b] ++ rest)%list at 2; reflexivity
     | ]).
  all: repeat apply conj; intros;
    try (split; intros); try (intros ? ?); literal.
  all: try (repeat constructor; cbn; intuition discriminate).
  all: try (eexists; split; [reflexivity | split; [discriminate | reflexivity]]).
  all: try (split; [reflexivity | intros [H|H]; discriminate H]).
Qed.

(* ------------------------------------------------------------------------- *)
(** *** Beyond the contract: the handlers *)

Lemma matchNotesUri_shape (uri : string) (group : option string) :
  matchNotesUri uri = Some group ->
  match group with
  | None => uri = "slite://notes"
  | Some id => SingleSegment id /\ uri = "slite://notes/" ++ id
  end.
Proof.
  unfold matchNotesUri.
  destruct (stripPrefix "slite://notes" uri) as [rest|] eqn:E; [|discriminate].
  apply stripPrefix_Some in E. subst uri.
  destruct rest as [|c rest]; [intros [= <-]; reflexivity|].
  destruct (Ascii.eqb c "/") eqn:Ec; [|discriminate].
  apply Ascii.eqb_eq in Ec. subst c.
  destruct rest as [|d rest]; [discriminate|].
  destruct (noSlash (String d rest)) eqn:Es; [|discriminate].
  intros [= <-]. split; [split|reflexivity].
  - discriminate.
  - now apply noSlash_true_iff.
Qed.

(** Splits on the answer of the one request a handler sends. *)
Ltac answer :=
  rewrite ?send_eq;
  try match goal with
      | |- context [answered ?a] => destruct (answered a)
      end;
  cbn;
  try match goal with
      | |- context [results R ?payload] =>
          destruct (results R payload) as [?|[?|]]; cbn
      end.

(** X6: the create-note tool of stdio-server.ts never sends a templateId,
    whatever its arguments, while the create-note tool of index.ts sends the
    templateId it is given when that is not empty. *)
Theorem createNote_templateId_drift (net : Net R) :
  (forall title markdown parentNoteId attributes,
     exists payload,
       sent (snd (StdioServer.createNoteTool R title markdown parentNoteId attributes net))
       = (sent net ++ [post "/notes" payload])%list
       /\ ~ In "templateId" (keys payload))
  /\ (forall a template,
        Arguments.templateId a = Some template ->
        template <> EmptyString ->
        exists payload,
          sent (snd (callTool {| CallToolRequest.name := "create-note";
                                 CallToolRequest.arguments := Some a |} net))
          = (sent net ++ [post "/notes" payload])%list
          /\ In ("templateId", JsString template) payload).
Proof.
  split.
  - intros title markdown parentNoteId attributes.
    destruct parentNoteId as [[|c1 parentNoteId]|], attributes as [[|item items]|];
      run; cbn; eexists; (split; [answer; reflexivity|]);
      unfold keys; cbn; intuition discriminate.
  - intros [q l t m p tp attrs n ai] template Htemplate Hne. cbn in Htemplate.
    subst tp. destruct template as [|c2 template]; [congruence|].
    destruct p as [[|c1 p]|], attrs as [[|item items]|];
      run; pick; cbn; eexists; (split; [answer; reflexivity|]);
      cbn; tauto.
Qed.

(** X3: no handler sends more than one request for one call of the host:
    after a tools/call or a resources/read of index.ts, or a tool of
    stdio-server.ts, the network is either untouched or one request further,
    the service in the state that request left it in.  There is no retry. *)
Theorem handlers_send_at_most_one_request (net : Net R) :
  let atMostOne net' :=
    net' = net
    \/ exists request, net' = after net (snd (serve R request (world net))) request in
  (forall request, atMostOne (snd (callTool request net)))
  /\ (forall uri, atMostOne (snd (readResource uri net)))
  /\ (forall query limit, atMostOne (snd (StdioServer.searchNotesTool R query limit net)))
  /\ (forall title markdown parentNoteId attributes,
        atMostOne (snd (StdioServer.createNoteTool R title markdown parentNoteId
                          attributes net)))
  /\ (forall noteId title markdown parentNoteId attributes,
        atMostOne (snd (StdioServer.updateNoteTool R noteId title markdown parentNoteId
                          attributes net)))
  /\ atMostOne (snd (StdioServer.getAskInfoTool R stringify net)).
Proof.
  intros atMostOne. subst atMostOne. repeat apply conj.
  - intros [name args]. run.
    destruct (switch name SliteServer.cases) as [[]|]; cbv beta iota zeta;
      try (destruct args as [a|]; cbv beta iota zeta);
      try (destruct (negb (truthy (Arguments.title a)) && _ && _ && _)%bool);
      try (left; reflexivity);
      right; eexists; answer; reflexivity.
  - intros uri. run.
    destruct (matchNotesUri uri) as [[id|]|]; try (left; reflexivity).
    destruct (truthy (Some id)); [|left; reflexivity].
    right. eexists. answer; reflexivity.
  - intros query limit. run. right. eexists. answer; reflexivity.
  - intros title markdown parentNoteId attributes. run. right. eexists. answer; reflexivity.
  - intros noteId title markdown parentNoteId attributes. run.
    destruct (negb (truthy title) && _ && _ && _)%bool; [left; reflexivity|].
    right. eexists. answer; reflexivity.
  - run. right. eexists. answer; reflexivity.
Qed.

(** X12: a resources/read sends a request exactly when its URI is
    slite://notes/{id} with a single-segment id, and then it is
    GET /notes/{id}?format=md with that id, never the html format; on every
    other URI, the bare slite://notes included, the network is untouched. *)
Theorem readResource_request (uri : string) (net : Net R) :
  (exists id,
     SingleSegment id
     /\ uri = "slite://notes/" ++ id
     /\ snd (readResource uri net)
        = after net (snd (serve R (get ("/notes/" ++ id ++ "?format=md") []) (world net)))
            (get ("/notes/" ++ id ++ "?format=md") []))
  \/ ((forall id, SingleSegment id -> uri <> "slite://notes/" ++ id)
      /\ snd (readResource uri net) = net).
Proof.
  destruct (matchNotesUri uri) as [[id|]|] eqn:E.
  - destruct (matchNotesUri_shape uri (Some id) E) as [Hid ->].
    left. exists id. split; [exact Hid|]. split; [reflexivity|].
    run. rewrite E, (truthy_segment id Hid). cbn [tpl formatName].
    answer; reflexivity.
  - right. split.
    + intros id Hid ->. rewrite (matchNotesUri_note id Hid) in E. discriminate.
    + run. rewrite E. reflexivity.
  - right. split.
    + intros id Hid ->. rewrite (matchNotesUri_note id Hid) in E. discriminate.
    + run. rewrite E. reflexivity.
Qed.

(** X9: a tools/call that carries no arguments object.  The four tools that
    destructure their arguments answer with the error-flagged text of the
    TypeError, which names the first key each of them destructures (query,
    title, noteId, assistantId), and send nothing; get-ask-info and
    get-ask-index never look at the arguments and behave as with any
    arguments object. *)
Theorem callTool_without_arguments (net : Net R) :
  (forall name key,
     In (name, key)
        [("search-notes", "query"); ("create-note", "title");
         ("update-note", "noteId"); ("get-automation-assistant", "assistantId")] ->
     callTool {| CallToolRequest.name := name; CallToolRequest.arguments := None |} net
     = (Return {| CallToolResult.content :=
                    [CallToolResult.Text ("Error: " ++ destructureUndefined key)];
                  CallToolResult.isError := Some true |},
        net))
  /\ (forall name a,
        In name ["get-ask-info"; "get-ask-index"] ->
        callTool {| CallToolRequest.name := name; CallToolRequest.arguments := None |} net
        = callTool {| CallToolRequest.name := name;
                      CallToolRequest.arguments := Some a |} net).
Proof.
  split.
  - intros name key H. simpl in H.
    decompose [or] H; try tauto;
      match goal with E : (_, _) = (_, _) |- _ => injection E as <- <- end;
      reflexivity.
  - intros name a H. simpl in H. decompose [or] H; subst; try tauto; reflexivity.
Qed.

(** X10: index.ts does not check that a required key is present.  A missing
    query, noteId, assistantId or title reaches the client as undefined: the
    search is sent with an undefined q, the update goes to /notes/undefined,
    the assistant is fetched from /super/automation/undefined, and the note is
    posted with an undefined title. *)
Theorem callTool_missing_required_key (net : Net R) :
  (forall a,
     Arguments.query a = None ->
     sent (snd (callTool {| CallToolRequest.name := "search-notes";
                            CallToolRequest.arguments := Some a |} net))
     = (sent net
          ++ [get "/search-notes"
                [("q", JsUndefined);
                 ("limit", JsNumber (match Arguments.limit a with
                                     | Some l => l
                                     | None => 10%Z
                                     end))]])%list)
  /\ (forall a,
        Arguments.noteId a = None ->
        ~ NothingToUpdate (Arguments.title a) (Arguments.markdown a)
            (Arguments.parentNoteId a) (Arguments.attributes a) ->
        exists updates,
          sent (snd (callTool {| CallToolRequest.name := "update-note";
                                 CallToolRequest.arguments := Some a |} net))
          = (sent net ++ [put "/notes/undefined" updates])%list)
  /\ (forall a,
        Arguments.assistantId a = None ->
        sent (snd (callTool {| CallToolRequest.name := "get-automation-assistant";
                               CallToolRequest.arguments := Some a |} net))
        = (sent net ++ [get "/super/automation/undefined" []])%list)
  /\ (forall a,
        Arguments.title a = None ->
        exists optional,
          sent (snd (callTool {| CallToolRequest.name := "create-note";
                                 CallToolRequest.arguments := Some a |} net))
          = (sent net
               ++ [post "/notes"
                     ([("title", JsUndefined);
                       ("markdown", ofString (Arguments.markdown a))] ++ optional)])%list).
Proof.
  repeat apply conj.
  - intros a Hq. run. pick. rewrite Hq. cbn [ofString tpl]. answer; reflexivity.
  - intros [q l t m p tp attrs n ai] Hid Hnot. cbn in Hid, Hnot. subst n.
    run. pick. cbn [Arguments.noteId Arguments.title Arguments.markdown
                    Arguments.parentNoteId Arguments.attributes].
    destruct t as [[|c1 t]|], m as [[|c2 m]|], p as [[|c3 p]|], attrs as [items|];
      try (exfalso; apply Hnot; unfold NothingToUpdate, Blank; tauto);
      cbn; eexists; answer; reflexivity.
  - intros a Hid. run. pick. rewrite Hid. cbn [tpl]. answer; reflexivity.
  - intros [q l t m p tp attrs n ai] Ht. cbn in Ht. subst t.
    destruct p as [[|c1 p]|], tp as [[|c2 tp]|], attrs as [[|item items]|];
      run; pick; cbn; eexists; answer;
      change (?a :: ?b :: ?rest) with ([a; b] ++ rest)%list at 2; reflexivity.
Qed.

Lemma switch_In {B : Type} (name : string) (cases : list (string * B)) (branch : B) :
  switch name cases = Some branch -> In (name, branch) cases.
Proof.
  induction cases as [|[label b] cases IH]; simpl; [discriminate|].
  destruct (String.eqb name label) eqn:E.
  - apply String.eqb_eq in E. intros [= ->]. left. now subst.
  - intros H. right. auto.
Qed.

(** X4: the request a tools/call of index.ts sends goes to the endpoint of
    the named tool: search-notes to GET /search-notes, create-note to
    POST /notes, update-note to PUT /notes/{noteId}, get-ask-info to GET /ask,
    get-ask-index to GET /ask/index, get-automation-assistant to
    GET /super/automation/{assistantId}; no tool reaches another endpoint. *)
Theorem callTool_endpoint (name : string) (a : Arguments.t) (net : Net R)
    (issued : Request) :
  sent (snd (callTool {| CallToolRequest.name := name;
                         CallToolRequest.arguments := Some a |} net))
  = (sent net ++ [issued])%list ->
  Endpoint name a (method issued) (url issued).
Proof.
  run. destruct (switch name SliteServer.cases) as [c|] eqn:E.
  - apply switch_In in E. simpl in E.
    decompose [or] E; clear E; try tauto;
      match goal with H : (_, _) = (_, _) |- _ => injection H as <- <- end;
      cbv beta iota zeta;
      try (destruct (negb (truthy (Arguments.title a)) && _ && _ && _)%bool);
      answer; intros H;
      try (exfalso; revert H; apply sent_grows_not);
      apply sent_last in H; subst issued; constructor.
  - cbn. intros H. exfalso. revert H. apply sent_grows_not.
Qed.

Lemma ends_here (x : string) : exists prefix, x = prefix ++ x.
Proof. now exists EmptyString. Qed.

Lemma ends_cons (c : ascii) (x text : string) :
  (exists prefix, text = prefix ++ x) -> exists prefix, String c text = prefix ++ x.
Proof. intros [prefix ->]. now exists (String c prefix). Qed.

Lemma ends_app (before x text : string) :
  (exists prefix, text = prefix ++ x) -> exists prefix, before ++ text = prefix ++ x.
Proof. intros [prefix ->]. exists (before ++ prefix). now rewrite append_assoc3. Qed.

(** Finds the prefix of a text that ends with a given string. *)
Ltac ends := repeat first [ exact (ends_here _) | apply ends_cons | apply ends_app ].

(** X13: when the service throws on the request of a tools/call of a catalog
    tool, the text of the error-flagged response ends with the message of the
    cause: the original error text survives both wrappings. *)
Theorem callTool_error_keeps_cause (request : CallToolRequest.t) (net : Net R)
    (issued : Request) (cause : Thrown) (w : World R) :
  In (CallToolRequest.name request) catalog ->
  sent (snd (callTool request net)) = (sent net ++ [issued])%list ->
  serve R issued (world net) = (inl cause, w) ->
  exists detail,
    fst (callTool request net)
    = Return {| CallToolResult.content := [CallToolResult.Text ("Error: " ++ detail)];
                CallToolResult.isError := Some true |}
    /\ exists prefix, detail = prefix ++ errorMessage cause.
Proof.
  destruct request as [name args]. intros Hin.
  destruct (callTool _ net) as [out net'] eqn:Hrun. cbn [fst snd].
  intros Hsent Hserve. revert Hrun. run.
  destruct (proj2 (switch_Some_iff name SliteServer.cases) Hin) as [c ->].
  destruct c; cbv beta iota zeta;
    try (destruct args as [a|]; cbv beta iota zeta);
    try (destruct (negb (truthy (Arguments.title a)) && _ && _ && _)%bool);
    rewrite ?send_eq; cbn;
    repeat match goal with
           | |- context [serve R ?request ?w] =>
               let E := fresh "E" in
               destruct (serve R request w) as [[?|?] ?] eqn:E; cbn
           | |- context [results R ?payload] =>
               destruct (results R payload) as [?|[?|]]; cbn
           end;
    intros [= <- <-]; cbn in Hsent;
    try (exfalso; revert Hsent; apply sent_grows_not);
    apply sent_last in Hsent; subst issued;
    same_answer;
    eexists; (split; [reflexivity | ends]).
Qed.

(** X15: every tool of stdio-server.ts answers with exactly one text block
    and never sets the error flag; when the service threw on the request the
    tool sent, the text ends with the message of the cause. *)
Theorem stdio_tools_return_one_unflagged_text (net : Net R) :
  let reported (run : Outcome CallToolResult.t * Net R) :=
    exists text,
      fst run = Return {| CallToolResult.content := [CallToolResult.Text text];
                          CallToolResult.isError := None |}
      /\ forall issued cause w,
           sent (snd run) = (sent net ++ [issued])%list ->
           serve R issued (world net) = (inl cause, w) ->
           exists prefix, text = prefix ++ errorMessage cause in
  (forall query limit, reported (StdioServer.searchNotesTool R query limit net))
  /\ (forall title markdown parentNoteId attributes,
        reported (StdioServer.createNoteTool R title markdown parentNoteId attributes net))
  /\ (forall noteId title markdown parentNoteId attributes,
        reported (StdioServer.updateNoteTool R noteId title markdown parentNoteId
                    attributes net))
  /\ reported (StdioServer.getAskInfoTool R stringify net).
Proof.
  intros reported. subst reported. repeat apply conj; intros *;
    match goal with
    | |- context [fst ?r] => destruct r as [out net'] eqn:Hrun
    end;
    cbn [fst snd]; revert Hrun; run;
    try (destruct (negb (truthy title) && _ && _ && _)%bool);
    rewrite ?send_eq; cbn;
    repeat match goal with
           | |- context [serve R ?request ?w] =>
               let E := fresh "E" in
               destruct (serve R request w) as [[?|?] ?] eqn:E; cbn
           | |- context [results R ?payload] =>
               destruct (results R payload) as [?|[?|]]; cbn
           end;
    intros [= <- <-]; eexists; (split; [reflexivity|]);
    intros issued cause' w' Hsent Hserve; cbn in Hsent;
    try (exfalso; revert Hsent; apply sent_grows_not);
    apply sent_last in Hsent; subst issued;
    same_answer;
    ends.
Qed.

(** X7: on the four tools they share, the two adapters send the same request
    and leave the network in the same state, and whenever index.ts answers
    without the error flag, stdio-server.ts gives the very same answer; for
    create-note this holds when no templateId is given, the one argument the
    variant does not take.  The variants differ only in how they report a
    failure. *)
Theorem adapters_agree_unless_failure (net : Net R) :
  let agree (indexed variant : Outcome CallToolResult.t * Net R) :=
    snd indexed = snd variant
    /\ forall result,
         fst indexed = Return result ->
         CallToolResult.isError result = None ->
         variant = indexed in
  (forall a query,
     Arguments.query a = Some query ->
     agree (callTool {| CallToolRequest.name := "search-notes";
                        CallToolRequest.arguments := Some a |} net)
           (StdioServer.searchNotesTool R query (Arguments.limit a) net))
  /\ (forall a title markdown,
        Arguments.title a = Some title ->
        Arguments.markdown a = Some markdown ->
        Blank (Arguments.templateId a) ->
        agree (callTool {| CallToolRequest.name := "create-note";
                           CallToolRequest.arguments := Some a |} net)
              (StdioServer.createNoteTool R title markdown (Arguments.parentNoteId a)
                 (Arguments.attributes a) net))
  /\ (forall a noteId,
        Arguments.noteId a = Some noteId ->
        agree (callTool {| CallToolRequest.name := "update-note";
                           CallToolRequest.arguments := Some a |} net)
              (StdioServer.updateNoteTool R noteId (Arguments.title a)
                 (Arguments.markdown a) (Arguments.parentNoteId a)
                 (Arguments.attributes a) net))
  /\ (forall args,
        agree (callTool {| CallToolRequest.name := "get-ask-info";
                           CallToolRequest.arguments := args |} net)
              (StdioServer.getAskInfoTool R stringify net)).
Proof.
  intros agree. subst agree. repeat apply conj.
  - intros a query Hq. run. pick. rewrite Hq. cbn [ofString tpl].
    answer; (split; [reflexivity|]); intros result [= <-] Hflag; first [discriminate Hflag | reflexivity].
  - intros [q l t m p tp attrs n ai] title markdown Ht Hm Hb. cbn in Ht, Hm, Hb.
    subst t m. run. pick.
    cbn [Arguments.title Arguments.markdown Arguments.parentNoteId
         Arguments.templateId Arguments.attributes].
    destruct Hb as [-> | ->]; cbn [truthy];
      answer; (split; [reflexivity|]); intros result [= <-] Hflag;
      first [discriminate Hflag | reflexivity].
  - intros a noteId Hid. run. pick. rewrite Hid. cbn [tpl].
    destruct (negb (truthy (Arguments.title a)) && _ && _ && _)%bool.
    + split; [reflexivity|]. intros result [= <-]. reflexivity.
    + answer; (split; [reflexivity|]); intros result [= <-] Hflag; first [discriminate Hflag | reflexivity].
  - intros args. run. pick.
    answer; (split; [reflexivity|]); intros result [= <-] Hflag; first [discriminate Hflag | reflexivity].
Qed.

(** X8: a search the service answers without a results key, or with an empty
    results array, is not an error: both adapters return the heading alone,
    Search results for "query": and an empty line, without the error flag. *)
Theorem searchNotes_without_results
    (a : Arguments.t) (query : string) (net : Net R) (payload : Any R) (w : World R) :
  Arguments.query a = Some query ->
  let request :=
    get "/search-notes"
        [("q", JsString query);
         ("limit", JsNumber (match Arguments.limit a with
                             | Some l => l
                             | None => 10%Z
                             end))] in
  serve R request (world net) = (inr payload, w) ->
  results R payload = inr None \/ results R payload = inr (Some []) ->
  let answer :=
    {| CallToolResult.content :=
         [CallToolResult.Text
            ("Search results for " ++ dq ++ query ++ dq ++ ":" ++ nl ++ nl)];
       CallToolResult.isError := None |} in
  callTool {| CallToolRequest.name := "search-notes";
              CallToolRequest.arguments := Some a |} net
    = (Return answer, after net w request)
  /\ StdioServer.searchNotesTool R query (Arguments.limit a) net
    = (Return answer, after net w request).
Proof.
  intros Hq request Hserve Hresults answer. split; run; pick; rewrite ?Hq;
    cbn [ofString tpl]; (erewrite send_returns by exact Hserve);
    destruct Hresults as [-> | ->]; reflexivity.
Qed.

(** X14: what the adapter advertises it can read.  The URI of every listed
    resource is read without an error and without a request; the URI template
    of every listed template is a prefix followed by {noteId}, and the prefix
    followed by any single-segment id is a URI the read handler takes as the
    note of that id. *)
Theorem advertised_resources_are_readable (net : Net R) :
  (forall resource,
     In resource SliteServer.listResources ->
     exists contents, readResource (Resource.uri resource) net = (Return contents, net))
  /\ (forall template,
        In template SliteServer.listResourceTemplates ->
        exists prefix,
          ResourceTemplate.uriTemplate template = prefix ++ "{noteId}"
          /\ forall id,
               SingleSegment id ->
               matchNotesUri (prefix ++ id) = Some (Some id)
               /\ sent (snd (readResource (prefix ++ id) net))
                  = (sent net ++ [get ("/notes/" ++ id ++ "?format=md") []])%list).
Proof.
  split.
  - intros resource [<- | []]. eexists. reflexivity.
  - intros template [<- | []]. exists "slite://notes/". split; [reflexivity|].
    intros id Hid. split; [now apply matchNotesUri_note|].
    run. rewrite (matchNotesUri_note id Hid), (truthy_segment id Hid).
    cbn [tpl formatName]. answer; reflexivity.
Qed.

End Properties.

(* ------------------------------------------------------------------------- *)
(** ** The adapters on concrete services *)

Section Runs.
Import Axios SliteApiClient.

Lemma segment_abc123 : SingleSegment "abc123".
Proof. split; [discriminate | apply noSlash_true_iff; reflexivity]. Qed.

(** The bare URI is answered with the placeholder, without a request. *)
Example readResource_bare :
  SliteServer.readResource (Demo.up None) Demo.message Demo.dumpNote
    "slite://notes" (Demo.quiet (Demo.up None) 0)
  = (Return {| ReadResourceResult.contents :=
                 [ {| ReadResourceResult.uri := "slite://notes";
                      ReadResourceResult.title := "All Notes";
                      ReadResourceResult.text :=
                        "This would list all notes from Slite. In a real implementation, you would fetch all notes from the Slite API." |} ] |},
     Demo.quiet (Demo.up None) 0).
Proof. reflexivity. Qed.

(** A search that succeeds lists the results, one line each. *)
Example callTool_search_success :
  SliteServer.callTool (Demo.up None) Demo.message Demo.dump Demo.typeError
    (Demo.call "search-notes" (Demo.searching "roadmap")) (Demo.quiet (Demo.up None) 0)
  = (Return (SliteServer.text
               ("Search results for " ++ dq ++ "roadmap" ++ dq ++ ":" ++ nl ++ nl
                  ++ "- Greeting: No snippet available (note)")),
     after (Demo.quiet (Demo.up None) 0) 1
       (get "/search-notes" [("q", JsString "roadmap"); ("limit", JsNumber 10)])).
Proof. reflexivity. Qed.

(** A tools/call without arguments: the destructuring throws inside the try
    block, before any request. *)
Example callTool_search_without_arguments :
  SliteServer.callTool (Demo.up None) Demo.message Demo.dump Demo.typeError
    {| CallToolRequest.name := "search-notes"; CallToolRequest.arguments := None |}
    (Demo.quiet (Demo.up None) 0)
  = (Return {| CallToolResult.content :=
                 [CallToolResult.Text ("Error: " ++ Demo.typeError "query")];
               CallToolResult.isError := Some true |},
     Demo.quiet (Demo.up None) 0).
Proof. reflexivity. Qed.

(** createNote with every optional parameter: the payload grows in source
    order; an empty attribute list is left out. *)
Example createNote_full_payload :
  sent (snd (createNote (Demo.up None) (Some "T") (Some "M") (Some "p1") (Some "t1")
               (Some ["a"; "b"]) (Demo.quiet (Demo.up None) 0)))
  = [post "/notes" [("title", JsString "T"); ("markdown", JsString "M");
                    ("parentNoteId", JsString "p1"); ("templateId", JsString "t1");
                    ("attributes", JsArray ["a"; "b"])]]
  /\ sent (snd (createNote (Demo.up None) (Some "T") (Some "M") (Some EmptyString) None
                  (Some []) (Demo.quiet (Demo.up None) 0)))
  = [post "/notes" [("title", JsString "T"); ("markdown", JsString "M")]].
Proof. split; reflexivity. Qed.

(** A search answered with the body null: reading the results throws inside
    the client's try block, so index.ts reports a flagged error and
    stdio-server.ts an unflagged one, after one request. *)
Example searchNotes_null_body :
  let report :=
    "Failed to search for " ++ dq ++ "roadmap" ++ dq
      ++ ": Cannot read properties of null (reading 'results')" in
  let net := Demo.quiet Demo.null 0 in
  let request := get "/search-notes" [("q", JsString "roadmap"); ("limit", JsNumber 10)] in
  SliteServer.callTool Demo.null Demo.message Demo.dump Demo.typeError
    (Demo.call "search-notes" (Demo.searching "roadmap")) net
    = (Return {| CallToolResult.content := [CallToolResult.Text ("Error: " ++ report)];
                 CallToolResult.isError := Some true |},
       after net 1 request)
  /\ StdioServer.searchNotesTool Demo.null "roadmap" None net
    = (Return {| CallToolResult.content :=
                   [CallToolResult.Text ("Failed to search: " ++ report)];
                 CallToolResult.isError := None |},
       after net 1 request).
Proof. split; reflexivity. Qed.

(** C1, at the name delete-note. *)
Lemma callTool_unknown_tool_run :
  SliteServer.callTool Demo.down Demo.message Demo.dump Demo.typeError
    (Demo.call "delete-note" Arguments.empty) (Demo.quiet Demo.down tt)
  = (Return {| CallToolResult.content :=
                 [CallToolResult.Text "Error: MCP error -32601: Unknown tool: delete-note"];
               CallToolResult.isError := Some true |},
     Demo.quiet Demo.down tt).
Proof.
  apply (callTool_unknown_tool Demo.down Demo.message Demo.dump Demo.typeError
           "delete-note" (Some Arguments.empty) (Demo.quiet Demo.down tt)).
  unfold catalog. simpl. intuition discriminate.
Defined.

(** C7, at a URI with a second path segment, on a service that is up. *)
Lemma readResource_invalid_uri_run :
  SliteServer.readResource (Demo.up None) Demo.message Demo.dumpNote
    "slite://notes/a/b" (Demo.quiet (Demo.up None) 0)
  = (Throw (McpError InvalidRequest
              "MCP error -32600: Invalid URI format: slite://notes/a/b"),
     Demo.quiet (Demo.up None) 0).
Proof.
  apply (readResource_invalid_uri (Demo.up None) Demo.message Demo.dumpNote
           "slite://notes/a/b" (Demo.quiet (Demo.up None) 0)).
  intros [H | (id & [_ Hslash] & E)].
  - discriminate H.
  - injection E as <-. apply (Hslash "a" "b"). reflexivity.
Defined.

(** C6, at a note whose body is Hello and at a note without a body. *)
Lemma readResource_note_text_run :
  (exists text,
     SliteServer.readResource (Demo.up (Some "Hello")) Demo.message Demo.dumpNote
       "slite://notes/abc123" (Demo.quiet (Demo.up (Some "Hello")) 0)
     = (Return {| ReadResourceResult.contents :=
                    [ {| ReadResourceResult.uri := "slite://notes/abc123";
                         ReadResourceResult.title := "Greeting";
                         ReadResourceResult.text := text |} ] |},
        after (Demo.quiet (Demo.up (Some "Hello")) 0) 1
          (get "/notes/abc123?format=md" []))
     /\ text = "Hello")
  /\
  (exists text,
     SliteServer.readResource (Demo.up None) Demo.message Demo.dumpNote
       "slite://notes/abc123" (Demo.quiet (Demo.up None) 0)
     = (Return {| ReadResourceResult.contents :=
                    [ {| ReadResourceResult.uri := "slite://notes/abc123";
                         ReadResourceResult.title := "Greeting";
                         ReadResourceResult.text := text |} ] |},
        after (Demo.quiet (Demo.up None) 0) 1 (get "/notes/abc123?format=md" []))
     /\ text = Demo.dumpNote (Demo.note None)).
Proof.
  split.
  - destruct (readResource_note_text (Demo.up (Some "Hello")) Demo.message Demo.dumpNote
                "abc123" tt (Demo.quiet (Demo.up (Some "Hello")) 0) 1
                segment_abc123 eq_refl) as (text & Hrun & Hbody & _).
    exists text. split; [exact Hrun|]. apply Hbody; [reflexivity | discriminate].
  - destruct (readResource_note_text (Demo.up None) Demo.message Demo.dumpNote
                "abc123" tt (Demo.quiet (Demo.up None) 0) 1
                segment_abc123 eq_refl) as (text & Hrun & _ & Hblank).
    exists text. split; [exact Hrun|]. apply Hblank. left. reflexivity.
Defined.

(** C8, at the query roadmap. *)
Lemma searchNotes_default_limit_run :
  let request := get "/search-notes" [("q", JsString "roadmap"); ("limit", JsNumber 10)] in
  sent (snd (SliteServer.callTool (Demo.up None) Demo.message Demo.dump Demo.typeError
               (Demo.call "search-notes" (Demo.searching "roadmap"))
               (Demo.quiet (Demo.up None) 0)))
    = [request]
  /\ sent (snd (StdioServer.searchNotesTool (Demo.up None) "roadmap" None
                  (Demo.quiet (Demo.up None) 0)))
    = [request].
Proof.
  exact (searchNotes_default_limit (Demo.up None) Demo.message Demo.dump Demo.typeError
           (Demo.searching "roadmap") "roadmap" (Demo.quiet (Demo.up None) 0)
           eq_refl eq_refl).
Defined.

(** C4, at a call that carries a noteId only. *)
Lemma updateNote_without_fields_run :
  let answer :=
    {| CallToolResult.content :=
         [CallToolResult.Text "You must provide at least one field to update."];
       CallToolResult.isError := None |} in
  SliteServer.callTool (Demo.up None) Demo.message Demo.dump Demo.typeError
    (Demo.call "update-note" (Demo.updating "abc123" None None))
    (Demo.quiet (Demo.up None) 0)
    = (Return answer, Demo.quiet (Demo.up None) 0)
  /\ StdioServer.updateNoteTool (Demo.up None) "abc123" None None None None
       (Demo.quiet (Demo.up None) 0)
    = (Return answer, Demo.quiet (Demo.up None) 0).
Proof.
  exact (updateNote_without_fields (Demo.up None) Demo.message Demo.dump Demo.typeError
           (Demo.updating "abc123" None None) "abc123" (Demo.quiet (Demo.up None) 0)
           eq_refl eq_refl eq_refl eq_refl).
Defined.

(** C10, at a call whose only field is an empty title, and at a call with
    an empty title and a markdown body. *)
Lemma updateNote_empty_strings_are_absent_run :
  let answer :=
    {| CallToolResult.content :=
         [CallToolResult.Text "You must provide at least one field to update."];
       CallToolResult.isError := None |} in
  let net := Demo.quiet (Demo.up None) 0 in
  (SliteServer.callTool (Demo.up None) Demo.message Demo.dump Demo.typeError
     (Demo.call "update-note" (Demo.updating "abc123" (Some EmptyString) None)) net
     = (Return answer, net)
   /\ StdioServer.updateNoteTool (Demo.up None) "abc123" (Some EmptyString) None None None net
     = (Return answer, net))
  /\
  (exists updates,
     sent (snd (SliteServer.callTool (Demo.up None) Demo.message Demo.dump Demo.typeError
                  (Demo.call "update-note"
                     (Demo.updating "abc123" (Some EmptyString) (Some "New body"))) net))
       = [put "/notes/abc123" updates]
     /\ sent (snd (StdioServer.updateNoteTool (Demo.up None) "abc123" (Some EmptyString)
                     (Some "New body") None None net))
       = [put "/notes/abc123" updates]
     /\ ~ In "title" (keys updates)
     /\ In ("markdown", JsString "New body") updates).
Proof.
  intros answer net. split.
  - apply (updateNote_empty_strings_are_absent (Demo.up None) Demo.message Demo.dump
             Demo.typeError (Demo.updating "abc123" (Some EmptyString) None) "abc123"
             (Some EmptyString) None None None net
             eq_refl eq_refl eq_refl eq_refl eq_refl).
    unfold NothingToUpdate, Blank. tauto.
  - destruct (updateNote_empty_strings_are_absent (Demo.up None) Demo.message Demo.dump
                Demo.typeError
                (Demo.updating "abc123" (Some EmptyString) (Some "New body")) "abc123"
                (Some EmptyString) (Some "New body") None None net
                eq_refl eq_refl eq_refl eq_refl eq_refl) as [_ H].
    destruct H as (updates & H1 & H2 & _ & Ht & _ & _ & _ & Hm & _).
    + unfold NothingToUpdate, Blank. intros (_ & [H|H] & _); discriminate H.
    + exists updates. repeat split.
      * exact H1.
      * exact H2.
      * apply Ht. right. reflexivity.
      * apply Hm; [reflexivity | discriminate].
Defined.



(** C2, at a note of a service that answers 500. *)
Lemma resource_errors_thrown_run :
  SliteServer.readResource Demo.down Demo.message Demo.dumpNote
    "slite://notes/abc123" (Demo.quiet Demo.down tt)
  = (Throw (McpError InternalError
              (Demo.message InternalError
                 ("Failed to fetch note information: "
                    ++ "Failed to fetch note abc123: "
                    ++ errorMessage Demo.status500))),
     after (Demo.quiet Demo.down tt) tt (get "/notes/abc123?format=md" [])).
Proof.
  destruct (tool_errors_absorbed_resource_errors_thrown
              Demo.down Demo.message Demo.dumpNote Demo.dump Demo.typeError)
    as (_ & _ & _ & _ & _ & H).
  exact (H "abc123" (Demo.quiet Demo.down tt) Demo.status500 tt segment_abc123 eq_refl).
Defined.

(** C2, the run that contradicts the claim: reading a note from a service
    that answers 500 ends in a thrown McpError, not in a returned text. *)
Lemma readResource_failure_is_thrown :
  fst (SliteServer.readResource Demo.down Demo.message Demo.dumpNote
         "slite://notes/abc123" (Demo.quiet Demo.down tt))
  = Throw (McpError InternalError
             "MCP error -32603: Failed to fetch note information: Failed to fetch note abc123: Request failed with status code 500").
Proof. reflexivity. Qed.

(** X4, at an update-note call with a title on a service that is up. *)
Lemma callTool_endpoint_run :
  Endpoint "update-note" (Demo.updating "abc123" (Some "T") None)
    (method (put "/notes/abc123" [("title", JsString "T")]))
    (url (put "/notes/abc123" [("title", JsString "T")])).
Proof.
  exact (callTool_endpoint (Demo.up None) Demo.message Demo.dump Demo.typeError
           "update-note" (Demo.updating "abc123" (Some "T") None)
           (Demo.quiet (Demo.up None) 0)
           (put "/notes/abc123" [("title", JsString "T")]) eq_refl).
Defined.

(** X8, at the query roadmap on a service whose payload has no results. *)
Lemma searchNotes_without_results_run :
  let request := get "/search-notes" [("q", JsString "roadmap"); ("limit", JsNumber 10)] in
  let answer :=
    {| CallToolResult.content :=
         [CallToolResult.Text
            ("Search results for " ++ dq ++ "roadmap" ++ dq ++ ":" ++ nl ++ nl)];
       CallToolResult.isError := None |} in
  let net := Demo.quiet Demo.silent 0 in
  SliteServer.callTool Demo.silent Demo.message Demo.dump Demo.typeError
    (Demo.call "search-notes" (Demo.searching "roadmap")) net
    = (Return answer, after net 1 request)
  /\ StdioServer.searchNotesTool Demo.silent "roadmap" None net
    = (Return answer, after net 1 request).
Proof.
  exact (searchNotes_without_results Demo.silent Demo.message Demo.dump Demo.typeError
           (Demo.searching "roadmap") "roadmap" (Demo.quiet Demo.silent 0) tt 1
           eq_refl eq_refl (or_introl eq_refl)).
Defined.

(** X13, at a search on a service that answers 500. *)
Lemma callTool_error_keeps_cause_run :
  exists detail,
    fst (SliteServer.callTool Demo.down Demo.message Demo.dump Demo.typeError
           (Demo.call "search-notes" (Demo.searching "roadmap"))
           (Demo.quiet Demo.down tt))
    = Return {| CallToolResult.content := [CallToolResult.Text ("Error: " ++ detail)];
                CallToolResult.isError := Some true |}
    /\ exists prefix, detail = prefix ++ "Request failed with status code 500".
Proof.
  apply (callTool_error_keeps_cause Demo.down Demo.message Demo.dump Demo.typeError
           (Demo.call "search-notes" (Demo.searching "roadmap"))
           (Demo.quiet Demo.down tt)
           (get "/search-notes" [("q", JsString "roadmap"); ("limit", JsNumber 10)])
           Demo.status500 tt).
  - unfold catalog. simpl. tauto.
  - reflexivity.
  - reflexivity.
Defined.

End Runs.
